(** * Activities page controller (src/static/app.js)

    A shallow embedding of the view-controller script: the roster
    renderer [fetchActivities], the signup form handler and the
    per-participant removal handler, together with the two ECMAScript
    built-ins the script relies on for participant references
    ([encodeURIComponent] / [decodeURIComponent]).

    JavaScript strings are sequences of UTF-16 code units; they are
    modelled as [list N].  Exceptions are modelled with [option]
    ([None] = the expression throws); the handlers themselves catch
    what their [try] blocks cover and return the new page state
    together with the list of effects they requested from the browser
    (timers, a roster reload, a form reset, a console report). *)

From Stdlib Require Import List NArith ZArith Lia String Ascii Bool DecimalString.
Import ListNotations.

Local Open Scope N_scope.

(* ================================================================= *)
(** ** JavaScript strings *)

Definition jsstring := list N.

(** A code unit is a 16-bit quantity. *)
Definition code_units (s : jsstring) : Prop := Forall (fun c => c < 65536) s.

(** Literal of the script, written with ASCII characters only. *)
Definition js (s : string) : jsstring :=
  map N_of_ascii (list_ascii_of_string s).

Definition jsstring_eqb (a b : jsstring) : bool :=
  if list_eq_dec N.eq_dec a b then true else false.

(** [x >>= f] for computations that may throw. *)
Definition bind {A B} (x : option A) (f : A -> option B) : option B :=
  match x with
  | Some a => f a
  | None => None
  end.

Notation "'try!' x <- e ; k" := (bind e (fun x => k))
  (at level 10, x name, e at level 100, k at level 200).

(* ================================================================= *)
(** ** encodeURIComponent (ECMA-262, Encode with uriUnreserved) *)

Definition is_alpha (c : N) : bool :=
  ((65 <=? c) && (c <=? 90)) || ((97 <=? c) && (c <=? 122)).

Definition is_digit (c : N) : bool := (48 <=? c) && (c <=? 57).

(** uriMark:  - _ . ! ~ * ' ( )  *)
Definition is_mark (c : N) : bool :=
  existsb (N.eqb c) [45; 95; 46; 33; 126; 42; 39; 40; 41].

Definition uriUnreserved (c : N) : bool := is_alpha c || is_digit c || is_mark c.

Definition is_lead (c : N) : bool := (55296 <=? c) && (c <=? 56319).
Definition is_trail (c : N) : bool := (56320 <=? c) && (c <=? 57343).

(** The code point denoted by a surrogate pair. *)
Definition pair_code_point (hi lo : N) : N :=
  (hi - 55296) * 1024 + (lo - 56320) + 65536.

(** UTF-8 octets of a code point. *)
Definition utf8_octets (cp : N) : list N :=
  if cp <? 128 then [cp]
  else if cp <? 2048 then [192 + cp / 64; 128 + cp mod 64]
  else if cp <? 65536 then
    [224 + cp / 4096; 128 + (cp / 64) mod 64; 128 + cp mod 64]
  else
    [240 + cp / 262144; 128 + (cp / 4096) mod 64;
     128 + (cp / 64) mod 64; 128 + cp mod 64].

(** Upper-case hexadecimal digit. *)
Definition hexDigit (n : N) : N := if n <? 10 then 48 + n else 55 + n.

(** "%XY" for one octet. *)
Definition pctOctet (b : N) : jsstring := [37; hexDigit (b / 16); hexDigit (b mod 16)].

Definition pctOctets (bs : list N) : jsstring := flat_map pctOctet bs.

Fixpoint encodeURIComponent (s : jsstring) : option jsstring :=
  match s with
  | [] => Some []
  | c :: rest =>
      if uriUnreserved c then
        try! r <- encodeURIComponent rest; Some (c :: r)
      else if is_trail c then None
      else if is_lead c then
        match rest with
        | d :: rest' =>
            if is_trail d then
              try! r <- encodeURIComponent rest';
              Some (pctOctets (utf8_octets (pair_code_point c d)) ++ r)
            else None
        | [] => None
        end
      else
        try! r <- encodeURIComponent rest;
        Some (pctOctets (utf8_octets c) ++ r)
  end.

(* ================================================================= *)
(** ** decodeURIComponent (ECMA-262, Decode with an empty reserved set)

    The scan of the escape sequences and the interpretation of the
    octets they denote are written as two passes; a URIError of either
    pass is a URIError of the whole call. *)

Definition hexValue (c : N) : option N :=
  if is_digit c then Some (c - 48)
  else if (65 <=? c) && (c <=? 70) then Some (c - 55)
  else if (97 <=? c) && (c <=? 102) then Some (c - 87)
  else None.

Definition parseHexOctet (h l : N) : option N :=
  try! a <- hexValue h; try! b <- hexValue l; Some (16 * a + b).

Inductive token : Type :=
| Lit (c : N)      (* a code unit taken as it is *)
| Octet (b : N).   (* the value of a %XY escape *)

Fixpoint unescape (s : jsstring) : option (list token) :=
  match s with
  | [] => Some []
  | c :: rest =>
      if c =? 37 then
        match rest with
        | h :: l :: rest' =>
            try! b <- parseHexOctet h l;
            try! r <- unescape rest';
            Some (Octet b :: r)
        | _ => None
        end
      else
        try! r <- unescape rest; Some (Lit c :: r)
  end.

Definition is_cont (b : N) : bool := (128 <=? b) && (b <=? 191).

Definition UTF16EncodeCodePoint (cp : N) : jsstring :=
  if cp <=? 65535 then [cp]
  else [(cp - 65536) / 1024 + 55296; (cp - 65536) mod 1024 + 56320].

Definition is_surrogate (cp : N) : bool := (55296 <=? cp) && (cp <=? 57343).

Fixpoint decodeOctets (t : list token) : option jsstring :=
  match t with
  | [] => Some []
  | Lit c :: r => try! s <- decodeOctets r; Some (c :: s)
  | Octet b :: r =>
      if b <? 128 then try! s <- decodeOctets r; Some (b :: s)
      else if b <? 192 then None
      else if b <? 224 then
        match r with
        | Octet b1 :: r1 =>
            let cp := (b - 192) * 64 + (b1 - 128) in
            if is_cont b1 && (128 <=? cp) then
              try! s <- decodeOctets r1; Some (UTF16EncodeCodePoint cp ++ s)
            else None
        | _ => None
        end
      else if b <? 240 then
        match r with
        | Octet b1 :: Octet b2 :: r2 =>
            let cp := (b - 224) * 4096 + (b1 - 128) * 64 + (b2 - 128) in
            if is_cont b1 && is_cont b2 && (2048 <=? cp) && negb (is_surrogate cp) then
              try! s <- decodeOctets r2; Some (UTF16EncodeCodePoint cp ++ s)
            else None
        | _ => None
        end
      else if b <? 248 then
        match r with
        | Octet b1 :: Octet b2 :: Octet b3 :: r3 =>
            let cp := (b - 240) * 262144 + (b1 - 128) * 4096
                      + (b2 - 128) * 64 + (b3 - 128) in
            if is_cont b1 && is_cont b2 && is_cont b3
               && (65536 <=? cp) && (cp <=? 1114111) then
              try! s <- decodeOctets r3; Some (UTF16EncodeCodePoint cp ++ s)
            else None
        | _ => None
        end
      else None
  end.

Definition decodeURIComponent (s : jsstring) : option jsstring :=
  try! t <- unescape s; decodeOctets t.

(** A string without unpaired surrogates. *)
Fixpoint well_formed (s : jsstring) : bool :=
  match s with
  | [] => true
  | c :: rest =>
      if is_trail c then false
      else if is_lead c then
        match rest with
        | d :: rest' => is_trail d && well_formed rest'
        | [] => false
        end
      else (c <? 65536) && well_formed rest
  end.

(* ================================================================= *)
(** ** JSON values and the conversions the script applies to them *)

#[local] Set Warnings "-register-all".

(** What [response.json()] resolves to, extended with [undefined], the
    value of a missing property.  Of the numbers only the integers that
    print in plain decimal notation are covered. *)
Inductive value : Type :=
| VUndefined
| VNull
| VBool (b : bool)
| VNumber (n : Z)
| VString (s : jsstring)
| VArray (items : list value)
| VObject (fields : list (jsstring * value)).

(** Own property of a parsed object; of two equal keys the later one
    has overwritten the earlier. *)
Fixpoint lookup_field (k : jsstring) (fields : list (jsstring * value)) : value :=
  match fields with
  | [] => VUndefined
  | (k', v) :: rest =>
      match lookup_field k rest with
      | VUndefined => if jsstring_eqb k k' then v else VUndefined
      | w => w
      end
  end.

(** [result.message] / [result.detail]: a TypeError on [null] and
    [undefined], [undefined] on the other non-objects. *)
Definition get_field (v : value) (k : jsstring) : option value :=
  match v with
  | VUndefined | VNull => None
  | VObject fields => Some (lookup_field k fields)
  | _ => Some VUndefined
  end.

Definition ToBoolean (v : value) : bool :=
  match v with
  | VUndefined | VNull => false
  | VBool b => b
  | VNumber n => negb (Z.eqb n 0)
  | VString s => match s with [] => false | _ => true end
  | VArray _ | VObject _ => true
  end.

(** [a || b] *)
Definition or_else (a b : value) : value := if ToBoolean a then a else b.

(** Number::toString of an integer below 10^21 in magnitude: plain
    decimal digits (from 10^21 on JavaScript prints an exponent). *)
Definition Z_to_jsstring (n : Z) : jsstring :=
  js (NilZero.string_of_int (Z.to_int n)).

Fixpoint join (sep : jsstring) (l : list jsstring) : jsstring :=
  match l with
  | [] => []
  | [x] => x
  | x :: rest => x ++ sep ++ join sep rest
  end.

Fixpoint ToString (v : value) : jsstring :=
  match v with
  | VUndefined => js "undefined"
  | VNull => js "null"
  | VBool true => js "true"
  | VBool false => js "false"
  | VNumber n => Z_to_jsstring n
  | VString s => s
  | VArray items =>
      join (js ",")
        (map (fun x => match x with
                       | VUndefined | VNull => []
                       | _ => ToString x
                       end) items)
  | VObject _ => js "[object Object]"
  end.

(* ================================================================= *)
(** ** The page *)

(** The message element: its text and its class list. *)
Record MessageDiv : Type := {
  textContent : jsstring;
  classList : list string
}.

(** Conversion to a nullable DOMString attribute, where [null] and
    [undefined] stand for the empty string. *)
Definition DOMString_of (v : value) : jsstring :=
  match v with
  | VUndefined | VNull => []
  | _ => ToString v
  end.

(** Assignment to [textContent]. *)
Definition set_textContent (v : value) (m : MessageDiv) : MessageDiv :=
  {| textContent := DOMString_of v; classList := classList m |}.

(** Space-separated tokens of a class attribute. *)
Fixpoint class_tokens (cur : string) (s : string) : list string :=
  match s with
  | EmptyString => match cur with EmptyString => [] | _ => [cur] end
  | String a rest =>
      if Ascii.eqb a " "%char then
        match cur with
        | EmptyString => class_tokens EmptyString rest
        | _ => cur :: class_tokens EmptyString rest
        end
      else class_tokens (cur ++ String a EmptyString) rest
  end.

Definition set_className (c : string) (m : MessageDiv) : MessageDiv :=
  {| textContent := textContent m; classList := class_tokens EmptyString c |}.

Definition has_class (c : string) (m : MessageDiv) : bool :=
  existsb (String.eqb c) (classList m).

Definition classList_remove (c : string) (m : MessageDiv) : MessageDiv :=
  {| textContent := textContent m;
     classList := filter (fun x => negb (String.eqb c x)) (classList m) |}.

Definition classList_add (c : string) (m : MessageDiv) : MessageDiv :=
  {| textContent := textContent m;
     classList := if has_class c m then classList m else classList m ++ [c] |}.

Definition visible (m : MessageDiv) : bool := negb (has_class "hidden" m).

(** A row of a participants list, as the card template writes it. *)
Record participant_item : Type := {
  data_activity : jsstring;
  data_email : jsstring;
  span_text : jsstring;
  click_handlers : nat  (* listeners on the row's delete button *)
}.

(** Children of the list area. *)
Inductive child : Type :=
| ActivityCard (innerHTML : jsstring) (items : list participant_item)
| Paragraph (text : jsstring).

Record option_elem : Type := { opt_value : jsstring; opt_text : jsstring }.

Record Page : Type := {
  activitiesList : list child;
  activitySelect : list option_elem;
  messageDiv : MessageDiv
}.

Definition with_message (m : MessageDiv) (pg : Page) : Page :=
  {| activitiesList := activitiesList pg;
     activitySelect := activitySelect pg;
     messageDiv := m |}.

(** What a handler asks of the browser besides changing the page.  The
    only timer callback of the script adds [hidden] to the message. *)
Inductive effect : Type :=
| SetTimeoutHide (ms : N)
| CallFetchActivities
| FormReset
| ConsoleError (label : string).

Definition effect_eqb (a b : effect) : bool :=
  match a, b with
  | SetTimeoutHide m, SetTimeoutHide n => N.eqb m n
  | CallFetchActivities, CallFetchActivities => true
  | FormReset, FormReset => true
  | ConsoleError x, ConsoleError y => String.eqb x y
  | _, _ => false
  end.

Definition requested (e : effect) (l : list effect) : bool := existsb (effect_eqb e) l.

(* ================================================================= *)
(** ** The network *)

Inductive http_method : Type := GET | POST | DELETE.

Record request : Type := { method : http_method; url : jsstring }.

(** Outcome of [fetch] followed by [response.json()]: the request
    fails, or a response arrives whose body parses ([Some]) or does
    not ([None]). *)
Inductive fetch_result (B : Type) : Type :=
| NetworkError
| Response (status : N) (body : option B).

Arguments NetworkError {B}.
Arguments Response {B} status body.

(** [response.ok] *)
Definition response_ok (status : N) : bool := (200 <=? status) && (status <=? 299).

(* ================================================================= *)
(** ** fetchActivities *)

(** An entry of the object returned by [GET /activities]. *)
Record Activity : Type := {
  description : jsstring;
  schedule : jsstring;
  max_participants : Z;
  participants : list jsstring
}.

(** [Object.entries(activities)], in the object's own order. *)
Definition ActivityCollection := list (jsstring * Activity).

Definition quote : jsstring := [34].
Definition newline : jsstring := [10].

(** [name="v"] inside a tag of a template. *)
Definition attr (name : string) (v : jsstring) : jsstring :=
  js name ++ js "=" ++ quote ++ v ++ quote.

(** The integer nearest to [z] among the IEEE 754 binary64 numbers (53
    bits of significand, ties to the even significand); magnitudes from
    2^1024 on, which round to Infinity, are not covered. *)
Definition double_round (z : Z) : Z :=
  let a := Z.abs z in
  if (a <? 2 ^ 53)%Z then z
  else
    let sh := (Z.log2 a - 52)%Z in
    let q := Z.shiftr a sh in
    let r := (a - Z.shiftl q sh)%Z in
    let half := Z.shiftl 1 (sh - 1) in
    let q' := if (half <? r)%Z || ((r =? half)%Z && Z.odd q) then (q + 1)%Z else q in
    (Z.sgn z * Z.shiftl q' sh)%Z.

(** [details.max_participants - details.participants.length], a
    subtraction of doubles; [max_participants] is the parsed number,
    an integer double. *)
Definition spotsLeft (details : Activity) : Z :=
  double_round
    (max_participants details - Z.of_nat (List.length (participants details)))%Z.

(** The template of one participant row (the argument of [.map]). *)
Definition participant_item_html (a e p : jsstring) : jsstring :=
  js "<div " ++ attr "class" (js "participant-item") ++ js " "
  ++ attr "data-activity" a ++ js " " ++ attr "data-email" e
  ++ js "><span>" ++ p ++ js "</span><button "
  ++ attr "class" (js "delete-btn") ++ js " "
  ++ attr "aria-label" (js "Remove participant") ++ js ">"
  ++ [10005] ++ js "</button></div>".

Definition render_item (name p : jsstring) : option (jsstring * participant_item) :=
  try! a <- encodeURIComponent name;
  try! e <- encodeURIComponent p;
  Some (participant_item_html a e p,
        {| data_activity := a; data_email := e; span_text := p;
           click_handlers := 0%nat |}).

(** [details.participants.map(...)] *)
Fixpoint render_items (name : jsstring) (ps : list jsstring)
  : option (list (jsstring * participant_item)) :=
  match ps with
  | [] => Some []
  | p :: rest =>
      try! x <- render_item name p;
      try! xs <- render_items name rest;
      Some (x :: xs)
  end.

Definition participants_open : jsstring :=
  js "<div " ++ attr "class" (js "participants")
  ++ js "><strong>Participants:</strong>".

Definition no_participants_html : jsstring :=
  participants_open ++ js "<p " ++ attr "class" (js "no-participants")
  ++ js ">No participants yet</p></div>".

Definition participants_html (rows : list jsstring) : jsstring :=
  participants_open ++ js "<div " ++ attr "class" (js "participants-list")
  ++ js ">" ++ join [] rows ++ js "</div></div>".

Definition participantsSection (name : jsstring) (details : Activity)
  : option (jsstring * list participant_item) :=
  match List.length (participants details) with
  | O => Some (no_participants_html, [])
  | _ =>
      try! rows <- render_items name (participants details);
      Some (participants_html (map fst rows), map snd rows)
  end.

Definition indent : jsstring := js "          ".

(** The card's [innerHTML] template. *)
Definition card_html (name : jsstring) (details : Activity)
    (spots : Z) (section : jsstring) : jsstring :=
  newline ++ indent ++ js "<h4>" ++ name ++ js "</h4>"
  ++ newline ++ indent ++ js "<p>" ++ description details ++ js "</p>"
  ++ newline ++ indent ++ js "<p><strong>Schedule:</strong> "
  ++ schedule details ++ js "</p>"
  ++ newline ++ indent ++ js "<p><strong>Availability:</strong> "
  ++ Z_to_jsstring spots ++ js " spots left</p>"
  ++ newline ++ indent ++ section
  ++ newline ++ js "        ".

(** The card of an entry: the markup assigned to its [innerHTML] and the
    rows that markup is written with; these are the rows of the parsed
    card when the strings of the entry hold no markup
    ([entry_markup_free] below). *)
Definition activityCard (name : jsstring) (details : Activity) : option child :=
  try! sec <- participantsSection name details;
  Some (ActivityCard (card_html name details (spotsLeft details) (fst sec)) (snd sec)).

Definition sentinel_option : option_elem :=
  {| opt_value := []; opt_text := js "-- Select an activity --" |}.

Definition name_option (name : jsstring) : option_elem :=
  {| opt_value := name; opt_text := name |}.

(** The body of the [forEach] callback, run over the entries; the
    boolean tells whether an entry threw (the entries after it are not
    visited, what the earlier ones appended stays). *)
Fixpoint populate (entries : ActivityCollection) (pg : Page) : Page * bool :=
  match entries with
  | [] => (pg, false)
  | (name, details) :: rest =>
      match activityCard name details with
      | None => (pg, true)
      | Some card =>
          populate rest
            {| activitiesList := activitiesList pg ++ [card];
               activitySelect := activitySelect pg ++ [name_option name];
               messageDiv := messageDiv pg |}
      end
  end.

(** [querySelectorAll(".delete-btn").forEach(btn => btn.addEventListener(...))] *)
Definition add_listener (it : participant_item) : participant_item :=
  {| data_activity := data_activity it; data_email := data_email it;
     span_text := span_text it; click_handlers := S (click_handlers it) |}.

Definition attach_handlers (pg : Page) : Page :=
  {| activitiesList :=
       map (fun c => match c with
                     | ActivityCard h items => ActivityCard h (map add_listener items)
                     | Paragraph t => Paragraph t
                     end) (activitiesList pg);
     activitySelect := activitySelect pg;
     messageDiv := messageDiv pg |}.

Definition failure_notice : child :=
  Paragraph (js "Failed to load activities. Please try again later.").

Definition load_failed (pg : Page) : Page * list effect :=
  ({| activitiesList := [failure_notice];
      activitySelect := activitySelect pg;
      messageDiv := messageDiv pg |},
   [ConsoleError "Error fetching activities:"]).

Definition activities_request : request := {| method := GET; url := js "/activities" |}.

Definition fetchActivities (net : request -> fetch_result ActivityCollection)
    (pg : Page) : Page * list effect :=
  match net activities_request with
  | Response _ (Some activities) =>
      let cleared := {| activitiesList := [];
                        activitySelect := [sentinel_option];
                        messageDiv := messageDiv pg |} in
      match populate activities cleared with
      | (pg', false) => (attach_handlers pg', [])
      | (pg', true) => load_failed pg'
      end
  | _ => load_failed pg
  end.

(** Modelled from the spec: the page as served, before the script has
    run (the markup is not part of the script): the select holds only
    the [-- Select an activity --] option, the message is hidden. *)
Definition initial_page (loading : list child) : Page :=
  {| activitiesList := loading;
     activitySelect := [sentinel_option];
     messageDiv := {| textContent := []; classList := ["hidden"%string] |} |}.

(* ================================================================= *)
(** ** The signup form handler *)

Definition signup_request (activity email : jsstring) : option request :=
  try! a <- encodeURIComponent activity;
  try! e <- encodeURIComponent email;
  Some {| method := POST;
          url := js "/activities/" ++ a ++ js "/signup?email=" ++ e |}.

(** The [try] block; [None] when it throws. *)
Definition signup_try (net : request -> fetch_result value)
    (email activity : jsstring) (m : MessageDiv) : option (MessageDiv * list effect) :=
  try! req <- signup_request activity email;
  match net req with
  | NetworkError => None
  | Response status body =>
      try! result <- body;
      if response_ok status then
        try! msg <- get_field result (js "message");
        let m1 := set_className "message success" (set_textContent msg m) in
        Some (classList_remove "hidden" m1,
              [FormReset; CallFetchActivities; SetTimeoutHide 5000])
      else
        try! detail <- get_field result (js "detail");
        let text := or_else detail (VString (js "An error occurred")) in
        let m1 := set_className "message error" (set_textContent text m) in
        Some (classList_remove "hidden" m1, [SetTimeoutHide 5000])
  end.

Definition signup_failed_text : jsstring := js "Failed to sign up. Please try again.".

Definition signup_catch (m : MessageDiv) : MessageDiv * list effect :=
  (classList_remove "hidden"
     (set_className "error" (set_textContent (VString signup_failed_text) m)),
   [ConsoleError "Error signing up:"]).

Definition signup_submit (net : request -> fetch_result value)
    (email activity : jsstring) (pg : Page) : Page * list effect :=
  let r := match signup_try net email activity (messageDiv pg) with
           | Some r => r
           | None => signup_catch (messageDiv pg)
           end in
  (with_message (fst r) pg, snd r).

(* ================================================================= *)
(** ** The click handler of a delete button *)

Definition unregister_request (activity email : jsstring) : option request :=
  try! a <- encodeURIComponent activity;
  try! e <- encodeURIComponent email;
  Some {| method := DELETE;
          url := js "/activities/" ++ a ++ js "/unregister?email=" ++ e |}.

Definition unregistered_text (email activity : jsstring) : jsstring :=
  js "Unregistered " ++ email ++ js " from " ++ activity.

Definition unregister_try (net : request -> fetch_result value)
    (activity email : jsstring) (m : MessageDiv) : option (MessageDiv * list effect) :=
  try! req <- unregister_request activity email;
  match net req with
  | NetworkError => None
  | Response status body =>
      if response_ok status then
        let m1 := set_className "message success"
                    (set_textContent (VString (unregistered_text email activity)) m) in
        Some (classList_remove "hidden" m1, [SetTimeoutHide 5000; CallFetchActivities])
      else
        try! result <- body;
        try! detail <- get_field result (js "detail");
        let text := or_else detail (VString (js "Failed to unregister")) in
        let m1 := set_className "message error" (set_textContent text m) in
        Some (classList_remove "hidden" m1, [])
  end.

Definition unregister_failed_text : jsstring := js "Failed to unregister. Please try again.".

Definition unregister_catch (m : MessageDiv) : MessageDiv * list effect :=
  (classList_remove "hidden"
     (set_className "message error"
        (set_textContent (VString unregister_failed_text) m)),
   [ConsoleError "Error unregistering:"]).

(** The pair a row refers to, read back from its data attributes
    (before the [try] block: a URIError here is not caught). *)
Definition item_reference (it : participant_item) : option (jsstring * jsstring) :=
  try! activity <- decodeURIComponent (data_activity it);
  try! email <- decodeURIComponent (data_email it);
  Some (activity, email).

Definition unregister (net : request -> fetch_result value)
    (activity email : jsstring) (pg : Page) : Page * list effect :=
  let r := match unregister_try net activity email (messageDiv pg) with
           | Some r => r
           | None => unregister_catch (messageDiv pg)
           end in
  (with_message (fst r) pg, snd r).

Definition delete_click (net : request -> fetch_result value)
    (it : participant_item) (pg : Page) : option (Page * list effect) :=
  try! ref <- item_reference it;
  Some (unregister net (fst ref) (snd ref) pg).

(** A delete button of the page; [btn.closest(".participant-item")] is
    the row that encloses it, if there is one. *)
Record delete_button : Type := { closest_item : option participant_item }.

(** The listener of a delete button: on a button without an enclosing
    row, reading [participantItem.dataset] throws a TypeError, before
    the [try] block. *)
Definition delete_btn_click (net : request -> fetch_result value)
    (btn : delete_button) (pg : Page) : option (Page * list effect) :=
  try! it <- closest_item btn;
  delete_click net it pg.

(* ================================================================= *)
(** ** Timers *)

(** The page together with the clock (in ms) and the deadlines of the
    pending hide timers. *)
Record World : Type := {
  now : N;
  timers : list N;
  page : Page
}.

Definition new_timers (t : N) (effects : list effect) : list N :=
  flat_map (fun e => match e with
                     | SetTimeoutHide ms => [t + ms]
                     | _ => []
                     end) effects.

(** A handler run at the current instant. *)
Definition run (h : Page -> Page * list effect) (w : World) : World :=
  let r := h (page w) in
  {| now := now w;
     timers := timers w ++ new_timers (now w) (snd r);
     page := fst r |}.

(** [dt] ms pass with no other event: the timers that come due fire. *)
Definition elapse (dt : N) (w : World) : World :=
  let t := now w + dt in
  let due := filter (fun d => d <=? t) (timers w) in
  {| now := t;
     timers := filter (fun d => negb (d <=? t)) (timers w);
     page := with_message
               (fold_left (fun m _ => classList_add "hidden" m) due
                  (messageDiv (page w)))
               (page w) |}.

(** A click on a row's delete button at the current instant. *)
Definition run_click (net : request -> fetch_result value)
    (it : participant_item) (w : World) : option World :=
  try! r <- delete_click net it (page w);
  Some (run (fun _ => r) w).

Definition shown (w : World) : bool := visible (messageDiv (page w)).

(* ================================================================= *)
(** ** Vocabulary of the statements *)

Definition nullish (v : value) : bool :=
  match v with
  | VUndefined | VNull => true
  | _ => false
  end.

(** A field of the parsed body of a response; [None] when the body
    does not parse or is [null]. *)
Definition body_field (body : option value) (k : jsstring) : option value :=
  try! result <- body; get_field result k.

(** The body parses and is not [null]. *)
Definition body_usable (body : option value) : bool :=
  match body with
  | Some result => negb (nullish result)
  | None => false
  end.

(** Some timer set before the instant [t0] is due [dt] ms after it. *)
Definition earlier_timer_due (w : World) (dt : N) : bool :=
  existsb (fun d => d <=? now w + dt) (timers w).

(** [x] occurs in [s]. *)
Definition occurs_in (x s : jsstring) : Prop := exists a b, s = a ++ x ++ b.

(** The fetch of the roster does not bring a parsed body. *)
Definition load_fails (net : request -> fetch_result ActivityCollection) : Prop :=
  net activities_request = NetworkError
  \/ exists status, net activities_request = Response status None.

(** The row of participant [p] in the card of activity [name]: the row
    template filled with the two percent-encoded strings and [p]. *)
Definition row_shows (name p row : jsstring) : Prop :=
  exists a e,
    encodeURIComponent name = Some a
    /\ encodeURIComponent p = Some e
    /\ row = participant_item_html a e p.

(** What the card of an entry shows: the template filled with
    [max_participants - participants.length], and one row per
    participant, in order. *)
Definition card_shows (entry : jsstring * Activity) (card : child) : Prop :=
  let (name, details) := entry in
  exists (rows : list jsstring) (items : list participant_item),
    List.length rows = List.length (participants details)
    /\ Forall2 (row_shows name) (participants details) rows
    /\ map span_text items = participants details
    /\ card = ActivityCard
                (card_html name details (spotsLeft details)
                   (match participants details with
                    | [] => no_participants_html
                    | _ => participants_html rows
                    end))
                items.

Definition message_text (pg : Page) : jsstring := textContent (messageDiv pg).

Definition severity_success (pg : Page) : bool := has_class "success" (messageDiv pg).
Definition severity_error (pg : Page) : bool := has_class "error" (messageDiv pg).

(** [p] is a prefix of [s]. *)
Fixpoint starts_with (p s : jsstring) : bool :=
  match p, s with
  | [], _ => true
  | a :: p', b :: s' => (a =? b) && starts_with p' s'
  | _ :: _, [] => false
  end.

(** The number of places of [s] at which [p] stands. *)
Fixpoint count_occurrences (p s : jsstring) : nat :=
  match s with
  | [] => O
  | _ :: s' => ((if starts_with p s then 1 else 0) + count_occurrences p s')%nat
  end.

(** [p] differs from every string that starts with [s] at a place
    inside [s]. *)
Fixpoint mismatch (p s : jsstring) : bool :=
  match p, s with
  | a :: p', b :: s' => if a =? b then mismatch p' s' else true
  | _, _ => false
  end.

(** [p] cannot start anywhere inside [l], whatever follows [l]. *)
Fixpoint all_mismatch (p l : jsstring) : bool :=
  match l with
  | [] => true
  | _ :: l' => mismatch p l && all_mismatch p l'
  end.

(** The start of the opening tag of a participant row. *)
Definition row_tag : jsstring :=
  js "<div class=" ++ quote ++ js "participant-item" ++ quote.

(** What the participants template writes before the rows. *)
Definition participants_list_open : jsstring :=
  participants_open ++ js "<div " ++ attr "class" (js "participants-list") ++ js ">".

(** No [<] and no [&]: put between tags, the string is read as the text
    it is. *)
Definition markup_free (s : jsstring) : bool :=
  forallb (fun c => negb (c =? 60) && negb (c =? 38)) s.

Definition entry_markup_free (entry : jsstring * Activity) : bool :=
  markup_free (fst entry) && markup_free (description (snd entry))
  && markup_free (schedule (snd entry))
  && forallb markup_free (participants (snd entry)).

(** The rows of a child of the list area, and of the whole list. *)
Definition rows_of (c : child) : list participant_item :=
  match c with
  | ActivityCard _ items => items
  | Paragraph _ => []
  end.

Definition all_rows (pg : Page) : list participant_item :=
  flat_map rows_of (activitiesList pg).

(** The card of the entry can be built (the loop body does not throw). *)
Definition entry_renders (entry : jsstring * Activity) : bool :=
  match activityCard (fst entry) (snd entry) with
  | Some _ => true
  | None => false
  end.

(** No participants, or a name and participants free of unpaired
    surrogates. *)
Definition entry_well_formed (entry : jsstring * Activity) : bool :=
  match participants (snd entry) with
  | [] => true
  | ps => well_formed (fst entry) && forallb well_formed ps
  end.

Definition entry_code_units (entry : jsstring * Activity) : Prop :=
  code_units (fst entry) /\ Forall code_units (participants (snd entry)).

(** The (activity, email) pairs of a collection, in display order. *)
Definition roster_references (c : ActivityCollection)
  : list (option (jsstring * jsstring)) :=
  flat_map (fun entry => map (fun p => Some (fst entry, p)) (participants (snd entry))) c.

(** The removal request spelled with the data attributes of a row as
    they stand. *)
Definition attribute_request (it : participant_item) : request :=
  {| method := DELETE;
     url := js "/activities/" ++ data_activity it
            ++ js "/unregister?email=" ++ data_email it |}.

(* ================================================================= *)
(** ** Sample data *)

Definition chess_club : ActivityCollection :=
  [(js "Chess Club",
    {| description := js "..."; schedule := js "...";
       max_participants := 10; participants := [js "a@x.com"] |})].

(** A name with a space and an ampersand; an email with an accented
    letter, the euro sign and a character outside the basic plane. *)
Definition sample_name : jsstring := js "Chess Club & Co".
Definition sample_email : jsstring := [233; 8364; 55357; 56832] ++ js "@x.com".

Definition loading_page : Page :=
  initial_page [Paragraph (js "Loading activities...")].

(** A server that answers the roster request with Chess Club, and a
    network that is down. *)
Definition chess_server : request -> fetch_result ActivityCollection :=
  fun _ => Response 200 (Some chess_club).

Definition offline {B : Type} : request -> fetch_result B := fun _ => NetworkError.

(** A server that gives the same answer to every request. *)
Definition answering {B : Type} (r : fetch_result B) : request -> fetch_result B :=
  fun _ => r.

Definition signup_ok_server : request -> fetch_result value :=
  answering (Response 200
    (Some (VObject [(js "message", VString (js "Signed up a@x.com for Chess Club"))]))).

Definition chess_row : participant_item :=
  {| data_activity := js "Chess%20Club"; data_email := js "a%40x.com";
     span_text := js "a@x.com"; click_handlers := 1 |}.

Definition fresh_world : World := {| now := 0; timers := []; page := loading_page |}.

(** The answer to a request that fails validation: the detail is a list
    of objects. *)
Definition validation_errors : list value :=
  [VObject [(js "msg", VString (js "field required"))];
   VObject [(js "msg", VString (js "invalid email"))]].

Definition validation_error_server : request -> fetch_result value :=
  answering (Response 422 (Some (VObject [(js "detail", VArray validation_errors)]))).




(** A roster whose second activity has a participant that cannot be
    percent-encoded. *)
Definition broken_entry : jsstring * Activity :=
  (js "Art", {| description := js "..."; schedule := js "...";
                max_participants := 5; participants := [[55357]] |}).

Definition gym_entry : jsstring * Activity :=
  (js "Gym", {| description := js "..."; schedule := js "...";
                max_participants := 1; participants := [js "b@x.com"; js "c@x.com"] |}).

(* ================================================================= *)
(** * Properties *)

(** ** Percent-encoding and its inverse *)

Section URI.

(** [lia] is to see through division by a constant. *)
Ltac Zify.zify_post_hook ::= Z.to_euclidean_division_equations.

Ltac bools :=
  repeat match goal with
    | H : _ && _ = true |- _ => apply andb_prop in H; destruct H
    | H : _ || _ = true |- _ => apply orb_prop in H; destruct H
    | H : (_ <=? _) = true |- _ => apply N.leb_le in H
    | H : (_ <=? _) = false |- _ => apply N.leb_gt in H
    | H : (_ <? _) = true |- _ => apply N.ltb_lt in H
    | H : (_ <? _) = false |- _ => apply N.ltb_ge in H
    | H : (_ =? _) = true |- _ => apply N.eqb_eq in H
    | H : (_ =? _) = false |- _ => apply N.eqb_neq in H
    | H : _ && _ = false |- _ => apply andb_false_iff in H; destruct H
    | H : _ || _ = false |- _ => apply orb_false_iff in H; destruct H
    end.

(** Decide the comparisons of the goal by arithmetic. *)
Ltac cmp :=
  repeat match goal with
    | |- context [?a <? ?b] =>
        first [ replace (a <? b) with true by (symmetry; apply N.ltb_lt; lia)
              | replace (a <? b) with false by (symmetry; apply N.ltb_ge; lia) ]
    | |- context [?a <=? ?b] =>
        first [ replace (a <=? b) with true by (symmetry; apply N.leb_le; lia)
              | replace (a <=? b) with false by (symmetry; apply N.leb_gt; lia) ]
    | |- context [?a =? ?b] =>
        first [ replace (a =? b) with true by (symmetry; apply N.eqb_eq; lia)
              | replace (a =? b) with false by (symmetry; apply N.eqb_neq; lia) ]
    end.

Lemma hexValue_hexDigit (n : N) : n < 16 -> hexValue (hexDigit n) = Some n.
Proof.
  intros Hn. unfold hexDigit.
  destruct (n <? 10) eqn:E; bools; unfold hexValue, is_digit; cmp;
    cbn [andb orb]; f_equal; lia.
Qed.

Lemma parseHexOctet_pct (b : N) :
  b < 256 -> parseHexOctet (hexDigit (b / 16)) (hexDigit (b mod 16)) = Some b.
Proof.
  intros Hb. unfold parseHexOctet.
  rewrite !hexValue_hexDigit; cbn [bind].
  - f_equal. symmetry. apply N.div_mod. lia.
  - apply N.mod_lt. lia.
  - apply N.Div0.div_lt_upper_bound. lia.
Qed.

Lemma bind_Some_r {A} (x : option A) : bind x (fun a => Some a) = x.
Proof. destruct x; reflexivity. Qed.

Lemma unescape_pctOctets (bs : list N) (e : jsstring) :
  Forall (fun b => b < 256) bs ->
  unescape (pctOctets bs ++ e) = try! r <- unescape e; Some (map Octet bs ++ r).
Proof.
  induction 1 as [|b bs Hb _ IH].
  - cbn [pctOctets flat_map app map]. symmetry. apply bind_Some_r.
  - cbn [pctOctets flat_map pctOctet app map unescape].
    change (37 =? 37) with true. cbv iota.
    rewrite parseHexOctet_pct by assumption. cbn [bind].
    fold (pctOctets bs). rewrite IH.
    destruct (unescape e); reflexivity.
Qed.

Lemma utf8_octets_bytes (cp : N) :
  cp < 1114112 -> Forall (fun b => b < 256) (utf8_octets cp).
Proof.
  intros Hcp. unfold utf8_octets.
  destruct (cp <? 128) eqn:E1; [|destruct (cp <? 2048) eqn:E2;
    [|destruct (cp <? 65536) eqn:E3]]; bools;
    repeat (apply Forall_cons; [cbv beta; lia|]); apply Forall_nil.
Qed.

(** The octets of a scalar value decode to that scalar value. *)
Lemma decodeOctets_utf8 (cp : N) (t : list token) :
  cp < 1114112 -> is_surrogate cp = false ->
  decodeOctets (map Octet (utf8_octets cp) ++ t)
  = try! s <- decodeOctets t; Some (UTF16EncodeCodePoint cp ++ s).
Proof.
  intros Hcp Hs.
  assert (Hs' : cp < 55296 \/ 57343 < cp)
    by (unfold is_surrogate in Hs; bools; lia).
  clear Hs. unfold utf8_octets.
  destruct (cp <? 128) eqn:E1; [|destruct (cp <? 2048) eqn:E2;
    [|destruct (cp <? 65536) eqn:E3]]; bools;
    cbn [map app decodeOctets]; cmp; cbv iota.
  - unfold UTF16EncodeCodePoint. cmp. reflexivity.
  - replace ((192 + cp / 64 - 192) * 64 + (128 + cp mod 64 - 128)) with cp by lia.
    unfold is_cont, UTF16EncodeCodePoint. cmp. reflexivity.
  - replace ((224 + cp / 4096 - 224) * 4096 + (128 + (cp / 64) mod 64 - 128) * 64
             + (128 + cp mod 64 - 128)) with cp by lia.
    unfold is_cont, is_surrogate, UTF16EncodeCodePoint.
    destruct Hs'; cmp; reflexivity.
  - replace ((240 + cp / 262144 - 240) * 262144
             + (128 + (cp / 4096) mod 64 - 128) * 4096
             + (128 + (cp / 64) mod 64 - 128) * 64
             + (128 + cp mod 64 - 128)) with cp by lia.
    unfold is_cont. cmp. reflexivity.
Qed.

Lemma uriUnreserved_ascii (c : N) : uriUnreserved c = true -> c < 128 /\ c <> 37.
Proof.
  unfold uriUnreserved, is_alpha, is_digit, is_mark. cbn [existsb].
  intros H. bools; lia.
Qed.

Lemma pair_code_point_range (hi lo : N) :
  is_lead hi = true -> is_trail lo = true ->
  65536 <= pair_code_point hi lo < 1114112
  /\ UTF16EncodeCodePoint (pair_code_point hi lo) = [hi; lo].
Proof.
  unfold is_lead, is_trail, pair_code_point, UTF16EncodeCodePoint.
  intros Hh Hl. bools. split; [lia|]. cmp. f_equal; [|f_equal]; lia.
Qed.

(** Decoding undoes encoding, whenever encoding does not throw. *)
Lemma decode_encode_bounded (n : nat) :
  forall (s e : jsstring),
    (List.length s <= n)%nat -> code_units s ->
    encodeURIComponent s = Some e ->
    exists t, unescape e = Some t /\ decodeOctets t = Some s.
Proof.
  induction n as [|n IH]; intros s e Hlen Hcu Henc.
  - destruct s; [|cbn in Hlen; lia]. cbn in Henc. injection Henc as <-.
    exists []. split; reflexivity.
  - destruct s as [|c rest].
    { cbn in Henc. injection Henc as <-. exists []. split; reflexivity. }
    cbn [List.length] in Hlen. inversion Hcu as [|? ? Hc Hrest]; subst.
    cbn [encodeURIComponent] in Henc.
    destruct (uriUnreserved c) eqn:Hun.
    { destruct (encodeURIComponent rest) as [r|] eqn:Hr; [|discriminate].
      cbn [bind] in Henc. injection Henc as <-.
      destruct (IH rest r) as (t & Ht & Hd); [lia|assumption|assumption|].
      apply uriUnreserved_ascii in Hun. exists (Lit c :: t).
      cbn [unescape decodeOctets]. cmp. rewrite Ht, Hd. split; reflexivity. }
    destruct (is_trail c) eqn:Htr; [discriminate|].
    destruct (is_lead c) eqn:Hld.
    { destruct rest as [|d rest']; [discriminate|].
      destruct (is_trail d) eqn:Htd; [|discriminate].
      destruct (encodeURIComponent rest') as [r|] eqn:Hr; [|discriminate].
      cbn [bind] in Henc. injection Henc as <-.
      inversion Hrest as [|? ? Hd' Hrest']; subst.
      cbn [List.length] in Hlen.
      destruct (IH rest' r) as (t & Ht & Hd); [lia|assumption|assumption|].
      destruct (pair_code_point_range c d Hld Htd) as (Hrange & Hpair).
      exists (map Octet (utf8_octets (pair_code_point c d)) ++ t). split.
      - rewrite unescape_pctOctets by (apply utf8_octets_bytes; lia).
        rewrite Ht. reflexivity.
      - rewrite decodeOctets_utf8.
        + rewrite Hd, Hpair. reflexivity.
        + lia.
        + unfold is_surrogate. cmp. reflexivity. }
    destruct (encodeURIComponent rest) as [r|] eqn:Hr; [|discriminate].
    cbn [bind] in Henc. injection Henc as <-.
    destruct (IH rest r) as (t & Ht & Hd); [lia|assumption|assumption|].
    exists (map Octet (utf8_octets c) ++ t). split.
    + rewrite unescape_pctOctets by (apply utf8_octets_bytes; lia).
      rewrite Ht. reflexivity.
    + rewrite decodeOctets_utf8.
      * rewrite Hd. unfold UTF16EncodeCodePoint. cmp. reflexivity.
      * lia.
      * unfold is_lead, is_trail in *. unfold is_surrogate.
        bools; try (exfalso; lia); cmp; reflexivity.
Qed.

Lemma decode_encode (s e : jsstring) :
  code_units s -> encodeURIComponent s = Some e -> decodeURIComponent e = Some s.
Proof.
  intros Hcu Henc.
  destruct (decode_encode_bounded (List.length s) s e) as (t & Ht & Hd); auto.
  unfold decodeURIComponent. rewrite Ht. exact Hd.
Qed.

(** Strings without unpaired surrogates are the ones that can be encoded. *)
Lemma well_formed_encodable_bounded (n : nat) :
  forall s : jsstring,
    (List.length s <= n)%nat -> well_formed s = true ->
    code_units s /\ exists e, encodeURIComponent s = Some e.
Proof.
  induction n as [|n IH]; intros s Hlen Hwf.
  - destruct s; [|cbn in Hlen; lia]. split; [constructor|exists []; reflexivity].
  - destruct s as [|c rest]; [split; [constructor|exists []; reflexivity]|].
    cbn [List.length] in Hlen. cbn [well_formed] in Hwf. cbn [encodeURIComponent].
    destruct (is_trail c) eqn:Htr; [discriminate|].
    destruct (is_lead c) eqn:Hld.
    + destruct rest as [|d rest']; [discriminate|].
      apply andb_prop in Hwf. destruct Hwf as [Htd Hwf]. rewrite Htd.
      cbn [List.length] in Hlen.
      destruct (IH rest') as (Hcu & r & Hr); [lia|assumption|].
      assert (Hun : uriUnreserved c = false).
      { destruct (uriUnreserved c) eqn:Hun; [|reflexivity].
        apply uriUnreserved_ascii in Hun. unfold is_lead in Hld. bools. lia. }
      rewrite Hun, Hr. cbn [bind]. split; [|eauto].
      unfold is_lead, is_trail in *.
      bools; (repeat (constructor; [lia|])); assumption.
    + apply andb_prop in Hwf. destruct Hwf as [Hc Hwf].
      destruct (IH rest) as (Hcu & r & Hr); [lia|assumption|].
      rewrite Hr. cbn [bind]. bools. split; [constructor; assumption|].
      destruct (uriUnreserved c); eauto.
Qed.

Lemma hexDigit_unreserved (n : N) : n < 16 -> uriUnreserved (hexDigit n) = true.
Proof.
  intros Hn. unfold hexDigit, uriUnreserved, is_alpha, is_digit.
  destruct (n <? 10) eqn:E; bools.
  - replace (48 <=? 48 + n) with true by (symmetry; apply N.leb_le; lia).
    replace (48 + n <=? 57) with true by (symmetry; apply N.leb_le; lia).
    cbn [andb]. rewrite orb_true_r. reflexivity.
  - replace (65 <=? 55 + n) with true by (symmetry; apply N.leb_le; lia).
    replace (55 + n <=? 90) with true by (symmetry; apply N.leb_le; lia).
    reflexivity.
Qed.

Lemma pctOctets_chars (bs : list N) :
  Forall (fun b => b < 256) bs ->
  Forall (fun c => uriUnreserved c = true \/ c = 37) (pctOctets bs).
Proof.
  induction 1 as [|b bs Hb _ IH]; [constructor|].
  cbn [pctOctets flat_map pctOctet app].
  constructor; [right; reflexivity|].
  constructor; [left; apply hexDigit_unreserved; lia|].
  constructor; [left; apply hexDigit_unreserved; lia|].
  exact IH.
Qed.

(** An encoded string is made of unreserved characters and [%]. *)
Lemma encoded_chars_bounded (n : nat) :
  forall (s e : jsstring),
    (List.length s <= n)%nat -> code_units s ->
    encodeURIComponent s = Some e ->
    Forall (fun c => uriUnreserved c = true \/ c = 37) e.
Proof.
  induction n as [|n IH]; intros s e Hlen Hcu Henc.
  - destruct s; [|cbn in Hlen; lia]. cbn in Henc. injection Henc as <-. constructor.
  - destruct s as [|c rest].
    { cbn in Henc. injection Henc as <-. constructor. }
    cbn [List.length] in Hlen. inversion Hcu as [|? ? Hc Hrest]; subst.
    cbn [encodeURIComponent] in Henc.
    destruct (uriUnreserved c) eqn:Hun.
    { destruct (encodeURIComponent rest) as [r|] eqn:Hr; [|discriminate].
      cbn [bind] in Henc. injection Henc as <-.
      constructor; [left; assumption|]. apply (IH rest r); [lia|assumption..]. }
    destruct (is_trail c) eqn:Htr; [discriminate|].
    destruct (is_lead c) eqn:Hld.
    { destruct rest as [|d rest']; [discriminate|].
      destruct (is_trail d) eqn:Htd; [|discriminate].
      destruct (encodeURIComponent rest') as [r|] eqn:Hr; [|discriminate].
      cbn [bind] in Henc. injection Henc as <-.
      inversion Hrest as [|? ? Hd' Hrest']; subst. cbn [List.length] in Hlen.
      destruct (pair_code_point_range c d Hld Htd) as (Hrange & _).
      apply Forall_app. split.
      - apply pctOctets_chars, utf8_octets_bytes. lia.
      - apply (IH rest' r); [lia|assumption..]. }
    destruct (encodeURIComponent rest) as [r|] eqn:Hr; [|discriminate].
    cbn [bind] in Henc. injection Henc as <-.
    apply Forall_app. split.
    + apply pctOctets_chars, utf8_octets_bytes. lia.
    + apply (IH rest r); [lia|assumption..].
Qed.

(** In particular it holds neither a double quote nor an ampersand: put
    between quotes in a tag, it is the attribute's value as it stands. *)
Lemma encoded_attribute_verbatim (s e : jsstring) :
  code_units s -> encodeURIComponent s = Some e -> ~ In 34 e /\ ~ In 38 e.
Proof.
  intros Hcu Henc.
  pose proof (encoded_chars_bounded (List.length s) s e (le_n _) Hcu Henc) as Hall.
  rewrite Forall_forall in Hall.
  split; intros Hin; destruct (Hall _ Hin) as [H|H]; discriminate.
Qed.

Lemma well_formed_encodable (s : jsstring) :
  well_formed s = true -> code_units s /\ exists e, encodeURIComponent s = Some e.
Proof. apply (well_formed_encodable_bounded (List.length s)). lia. Qed.

End URI.

(** ** Participant references *)

Section References.

Lemma rendered_item_reference (name p html : jsstring) (it : participant_item) :
  code_units name -> code_units p ->
  render_item name p = Some (html, it) ->
  item_reference it = Some (name, p).
Proof.
  intros Hn Hp. unfold render_item, item_reference.
  destruct (encodeURIComponent name) as [a|] eqn:Ha; [|discriminate].
  destruct (encodeURIComponent p) as [e|] eqn:He; [|discriminate].
  cbn [bind]. intros [= _ <-]. cbn [data_activity data_email].
  rewrite (decode_encode name a Hn Ha), (decode_encode p e Hp He). reflexivity.
Qed.

(** C7, as written, fails on a string with an unpaired surrogate: an
    email consisting of the single code unit U+D83D cannot be
    percent-encoded, so no removal control carrying it is produced and
    nothing can be read back. *)
Lemma lone_surrogate_reference_lost :
  code_units [55357]
  /\ encodeURIComponent [55357] = None
  /\ ~ (exists html it,
          render_item (js "Chess Club") [55357] = Some (html, it)
          /\ item_reference it = Some (js "Chess Club", [55357])).
Proof.
  split; [repeat constructor|]. split; [reflexivity|].
  intros (html & it & H & _). vm_compute in H. discriminate.
Qed.

(** C7 (amended): for every activity name and email without unpaired
    surrogates - spaces, ampersands and any Unicode character
    included - the row template percent-encodes the pair into the data
    attributes of the removal control, and the decoding done by the
    click handler gives back exactly the original pair. *)
Theorem reference_round_trip (name email : jsstring) :
  well_formed name = true -> well_formed email = true ->
  exists html it,
    render_item name email = Some (html, it)
    /\ encodeURIComponent name = Some (data_activity it)
    /\ encodeURIComponent email = Some (data_email it)
    /\ item_reference it = Some (name, email).
Proof.
  intros Hn He.
  destruct (well_formed_encodable name Hn) as (Hcn & a & Ha).
  destruct (well_formed_encodable email He) as (Hce & e & Hen).
  assert (Hr : render_item name email
               = Some (participant_item_html a e email,
                       {| data_activity := a; data_email := e;
                          span_text := email; click_handlers := 0 |}))
    by (unfold render_item; rewrite Ha, Hen; reflexivity).
  eexists _, _. split; [exact Hr|]. cbn [data_activity data_email].
  repeat split; try assumption.
  exact (rendered_item_reference _ _ _ _ Hcn Hce Hr).
Qed.

Lemma reference_round_trip_witness :
  well_formed sample_name = true /\ well_formed sample_email = true
  /\ exists html it,
       render_item sample_name sample_email = Some (html, it)
       /\ encodeURIComponent sample_name = Some (data_activity it)
       /\ encodeURIComponent sample_email = Some (data_email it)
       /\ item_reference it = Some (sample_name, sample_email).
Proof.
  split; [reflexivity|]. split; [reflexivity|].
  apply (reference_round_trip sample_name sample_email); reflexivity.
Defined.

End References.

(** ** The roster renderer *)

Section Renderer.

Lemma render_items_rows (name : jsstring) (ps : list jsstring) :
  forall rows, render_items name ps = Some rows ->
    map (fun r => span_text (snd r)) rows = ps
    /\ Forall2 (row_shows name) ps (map fst rows).
Proof.
  induction ps as [|p ps IH]; cbn [render_items]; intros rows H.
  - injection H as <-. split; [reflexivity|constructor].
  - destruct (render_item name p) as [[h it]|] eqn:Hit; [|discriminate].
    destruct (render_items name ps) as [xs|]; [|discriminate].
    cbn [bind] in H. injection H as <-. cbn [map fst snd].
    destruct (IH xs eq_refl) as [Hspan Hrows].
    unfold render_item in Hit.
    destruct (encodeURIComponent name) as [a|] eqn:Ha; [|discriminate].
    destruct (encodeURIComponent p) as [e|] eqn:He; [|discriminate].
    cbn [bind] in Hit. injection Hit as <- <-. cbn [span_text]. split.
    + rewrite Hspan. reflexivity.
    + constructor; [|exact Hrows]. exists a, e. repeat split; assumption.
Qed.

Lemma activityCard_shows (name : jsstring) (details : Activity) (card : child) :
  activityCard name details = Some card -> card_shows (name, details) card.
Proof.
  unfold activityCard, participantsSection, card_shows, spotsLeft.
  destruct (participants details) as [|p ps] eqn:Hps; cbn [List.length].
  - cbn [bind fst snd]. intros [= <-]. exists [], []. repeat split. constructor.
  - destruct (render_items name _) as [rows|] eqn:Hrows; [|discriminate].
    cbn [bind fst snd]. intros [= <-].
    destruct (render_items_rows _ _ _ Hrows) as [Hspan Hall].
    exists (map fst rows), (map snd rows). repeat split.
    + symmetry. exact (Forall2_length Hall).
    + exact Hall.
    + rewrite map_map. exact Hspan.
Qed.

(** The loop appends one card and one option per entry, unless an
    entry throws. *)
Lemma populate_done (c : ActivityCollection) :
  forall pg pg', populate c pg = (pg', false) ->
    exists cards,
      Forall2 (fun entry card => activityCard (fst entry) (snd entry) = Some card) c cards
      /\ activitiesList pg' = activitiesList pg ++ cards
      /\ activitySelect pg' = activitySelect pg ++ map name_option (map fst c)
      /\ messageDiv pg' = messageDiv pg.
Proof.
  induction c as [|[name details] c IH]; cbn [populate]; intros pg pg' H.
  - injection H as <-. exists []. rewrite !app_nil_r. repeat split. constructor.
  - destruct (activityCard name details) as [card|] eqn:Hcard; [|discriminate].
    apply IH in H. destruct H as (cards & Hall & Hl & Hs & Hm).
    cbn [activitiesList activitySelect messageDiv] in Hl, Hs, Hm.
    exists (card :: cards). repeat split.
    + constructor; assumption.
    + rewrite Hl, <- app_assoc. reflexivity.
    + rewrite Hs, <- app_assoc. reflexivity.
    + assumption.
Qed.

Lemma attach_handlers_shows (c : ActivityCollection) (cards : list child) :
  Forall2 card_shows c cards ->
  Forall2 card_shows c
    (map (fun c => match c with
                   | ActivityCard h items => ActivityCard h (map add_listener items)
                   | Paragraph t => Paragraph t
                   end) cards).
Proof.
  induction 1 as [|[name details] card c cards H _ IH]; cbn [map]; constructor;
    [|assumption].
  destruct H as (rows & items & Hlen & Hrows & Hspan & ->).
  exists rows, (map add_listener items). repeat split; [assumption|assumption|].
  rewrite map_map. exact Hspan.
Qed.

(** A load that reports no error has rendered the whole collection. *)
Lemma fetchActivities_rendered net pg status c :
  net activities_request = Response status (Some c) ->
  snd (fetchActivities net pg) = [] ->
  exists cards,
    Forall2 (fun entry card => activityCard (fst entry) (snd entry) = Some card) c cards
    /\ fetchActivities net pg
       = (attach_handlers
            {| activitiesList := cards;
               activitySelect := sentinel_option :: map name_option (map fst c);
               messageDiv := messageDiv pg |}, []).
Proof.
  intros Hnet. unfold fetchActivities. rewrite Hnet.
  destruct (populate c _) as [pg' [|]] eqn:Hpop; [discriminate|]. intros _.
  apply populate_done in Hpop. destruct Hpop as (cards & Hall & Hl & Hs & Hm).
  cbn [activitiesList activitySelect messageDiv app] in Hl, Hs, Hm.
  exists cards. split; [assumption|]. destruct pg'. cbn in Hl, Hs, Hm. subst.
  reflexivity.
Qed.

Lemma fetchActivities_failed net pg :
  load_fails net ->
  fetchActivities net pg
  = ({| activitiesList := [failure_notice];
        activitySelect := activitySelect pg;
        messageDiv := messageDiv pg |},
     [ConsoleError "Error fetching activities:"]).
Proof.
  intros [H|[status H]]; unfold fetchActivities; rewrite H; reflexivity.
Qed.

End Renderer.

(** ** Claims on the roster renderer *)

Section RendererClaims.

(** C8: when the first fetch of the roster fails - the request itself,
    or the parsing of the body - the list area holds the static failure
    notice and nothing else, the select is left as it was, which on the
    page as served is the single "-- Select an activity --" option, and
    the error goes to the console only. *)
Theorem initial_load_failure
    (net : request -> fetch_result ActivityCollection) (loading : list child) :
  load_fails net ->
  fetchActivities net (initial_page loading)
  = ({| activitiesList := [failure_notice];
        activitySelect := [sentinel_option];
        messageDiv := messageDiv (initial_page loading) |},
     [ConsoleError "Error fetching activities:"]).
Proof.
  intros H. rewrite (fetchActivities_failed net _ H). reflexivity.
Qed.

Lemma initial_load_failure_witness :
  load_fails (@offline ActivityCollection)
  /\ fetchActivities offline loading_page
     = ({| activitiesList := [failure_notice];
           activitySelect := [sentinel_option];
           messageDiv := messageDiv loading_page |},
        [ConsoleError "Error fetching activities:"]).
Proof.
  split; [left; reflexivity|].
  apply (initial_load_failure offline [Paragraph (js "Loading activities...")]).
  left; reflexivity.
Defined.

(** C10: a fetch of the roster that fails before its body has parsed
    touches the select not at all and puts the failure notice in the
    list area; so after a render of a collection followed by a failed
    refresh, the select still offers every activity of that collection
    while the list area shows the notice. *)
Theorem failed_refresh_keeps_options
    (net1 net2 : request -> fetch_result ActivityCollection) (pg : Page)
    (status : N) (c : ActivityCollection) :
  net1 activities_request = Response status (Some c) ->
  snd (fetchActivities net1 pg) = [] ->
  load_fails net2 ->
  (forall pg0,
      activitySelect (fst (fetchActivities net2 pg0)) = activitySelect pg0
      /\ activitiesList (fst (fetchActivities net2 pg0)) = [failure_notice])
  /\ activitySelect (fst (fetchActivities net2 (fst (fetchActivities net1 pg))))
     = sentinel_option :: map name_option (map fst c)
  /\ activitiesList (fst (fetchActivities net2 (fst (fetchActivities net1 pg))))
     = [failure_notice].
Proof.
  intros Hnet Hok Hfail.
  assert (Hany : forall pg0,
             activitySelect (fst (fetchActivities net2 pg0)) = activitySelect pg0
             /\ activitiesList (fst (fetchActivities net2 pg0)) = [failure_notice])
    by (intros pg0; rewrite (fetchActivities_failed net2 pg0 Hfail); split; reflexivity).
  split; [exact Hany|].
  destruct (Hany (fst (fetchActivities net1 pg))) as [Hsel Hlist].
  rewrite Hsel, Hlist. split; [|reflexivity].
  destruct (fetchActivities_rendered net1 pg status c Hnet Hok) as (cards & _ & Heq).
  rewrite Heq. reflexivity.
Qed.

Lemma failed_refresh_keeps_options_witness :
  chess_server activities_request = Response 200 (Some chess_club)
  /\ snd (fetchActivities chess_server loading_page) = []
  /\ load_fails (@offline ActivityCollection)
  /\ (forall pg0,
        activitySelect (fst (fetchActivities offline pg0)) = activitySelect pg0
        /\ activitiesList (fst (fetchActivities offline pg0)) = [failure_notice])
  /\ activitySelect
       (fst (fetchActivities offline (fst (fetchActivities chess_server loading_page))))
     = sentinel_option :: map name_option (map fst chess_club)
  /\ activitiesList
       (fst (fetchActivities offline (fst (fetchActivities chess_server loading_page))))
     = [failure_notice].
Proof.
  split; [reflexivity|]. split; [reflexivity|]. split; [left; reflexivity|].
  apply (failed_refresh_keeps_options chess_server offline loading_page 200 chess_club);
    [reflexivity|reflexivity|left; reflexivity].
Defined.

End RendererClaims.

(** ** The message element *)

Section Message.

Lemma visible_after_remove (m : MessageDiv) :
  visible (classList_remove "hidden" m) = true.
Proof.
  unfold visible, has_class, classList_remove. cbn [classList].
  induction (classList m) as [|c cs IH]; [reflexivity|].
  cbn [filter]. destruct (String.eqb "hidden" c) eqn:E; cbn [negb]; [exact IH|].
  cbn [existsb]. rewrite E. exact IH.
Qed.

Lemma has_class_add (c : string) (m : MessageDiv) :
  has_class c (classList_add c m) = true.
Proof.
  unfold classList_add. destruct (has_class c m) eqn:E.
  - unfold has_class in *. exact E.
  - unfold has_class. cbn [classList]. rewrite existsb_app. cbn [existsb].
    rewrite String.eqb_refl. apply orb_true_iff. right. reflexivity.
Qed.

Lemma classList_add_again (c : string) (m : MessageDiv) :
  has_class c m = true -> classList_add c m = m.
Proof.
  intros H. unfold classList_add. rewrite H. destruct m; reflexivity.
Qed.

(** However many timers fire, the message ends up hidden if one does. *)
Lemma timers_fired (due : list N) (m : MessageDiv) :
  due <> [] ->
  has_class "hidden" (fold_left (fun m _ => classList_add "hidden" m) due m) = true.
Proof.
  destruct due as [|d due]; [congruence|]. intros _. cbn [fold_left].
  generalize (has_class_add "hidden" m). generalize (classList_add "hidden" m).
  induction due as [|d' due IH]; intros m' Hm'; cbn [fold_left]; [exact Hm'|].
  apply IH. rewrite classList_add_again by exact Hm'. exact Hm'.
Qed.

Lemma elapse_hides (dt : N) (w : World) (d : N) :
  In d (timers w) -> d <= now w + dt -> shown (elapse dt w) = false.
Proof.
  intros Hin Hle. unfold shown, elapse, visible. cbn [page with_message messageDiv].
  rewrite timers_fired; [reflexivity|].
  intros Hnil.
  assert (Hd : In d (filter (fun d0 => d0 <=? now w + dt) (timers w)))
    by (apply filter_In; split; [assumption|apply N.leb_le; assumption]).
  rewrite Hnil in Hd. exact Hd.
Qed.

Lemma elapse_keeps (dt : N) (w : World) :
  (forall d, In d (timers w) -> now w + dt < d) ->
  shown (elapse dt w) = shown w.
Proof.
  intros Hlater. unfold shown, elapse. cbn [page with_message messageDiv].
  replace (filter (fun d => d <=? now w + dt) (timers w)) with (@nil N);
    [reflexivity|].
  symmetry. induction (timers w) as [|d ds IH]; [reflexivity|].
  cbn [filter]. replace (d <=? now w + dt) with false.
  - apply IH. intros d' Hd'. apply Hlater. right. exact Hd'.
  - symmetry. apply N.leb_gt. apply Hlater. left. reflexivity.
Qed.

End Message.

(** ** The two mutation handlers *)

Section Mutations.

Variable net : request -> fetch_result value.
Variables email activity : jsstring.

Lemma get_field_present (v : value) (k : jsstring) :
  nullish v = false -> exists x, get_field v k = Some x.
Proof. destruct v; cbn; intros H; try discriminate; eauto. Qed.

Lemma get_field_nullish (v : value) (k : jsstring) :
  nullish v = true -> get_field v k = None.
Proof. destruct v; cbn; intros H; try discriminate; reflexivity. Qed.

(** The [try] block of the signup handler, once the response is in. *)
Lemma signup_try_response (m : MessageDiv) req status body :
  signup_request activity email = Some req ->
  net req = Response status body ->
  signup_try net email activity m
  = try! result <- body;
    if response_ok status then
      try! msg <- get_field result (js "message");
      Some (classList_remove "hidden"
              (set_className "message success" (set_textContent msg m)),
            [FormReset; CallFetchActivities; SetTimeoutHide 5000])
    else
      try! detail <- get_field result (js "detail");
      Some (classList_remove "hidden"
              (set_className "message error"
                 (set_textContent
                    (or_else detail (VString (js "An error occurred"))) m)),
            [SetTimeoutHide 5000]).
Proof.
  intros Hreq Hnet. unfold signup_try. rewrite Hreq. cbn [bind]. rewrite Hnet.
  reflexivity.
Qed.

Lemma signup_try_transport (m : MessageDiv) req :
  signup_request activity email = Some req ->
  net req = NetworkError ->
  signup_try net email activity m = None.
Proof.
  intros Hreq Hnet. unfold signup_try. rewrite Hreq. cbn [bind]. rewrite Hnet.
  reflexivity.
Qed.

(** What the [catch] block of the signup handler leaves. *)
Lemma signup_submit_caught (pg : Page) :
  signup_try net email activity (messageDiv pg) = None ->
  signup_submit net email activity pg
  = (with_message {| textContent := signup_failed_text; classList := ["error"%string] |} pg,
     [ConsoleError "Error signing up:"]).
Proof. intros H. unfold signup_submit. rewrite H. reflexivity. Qed.

Lemma unregister_try_response (m : MessageDiv) req status body :
  unregister_request activity email = Some req ->
  net req = Response status body ->
  unregister_try net activity email m
  = if response_ok status then
      Some (classList_remove "hidden"
              (set_className "message success"
                 (set_textContent (VString (unregistered_text email activity)) m)),
            [SetTimeoutHide 5000; CallFetchActivities])
    else
      try! result <- body;
      try! detail <- get_field result (js "detail");
      Some (classList_remove "hidden"
              (set_className "message error"
                 (set_textContent
                    (or_else detail (VString (js "Failed to unregister"))) m)),
            []).
Proof.
  intros Hreq Hnet. unfold unregister_try. rewrite Hreq. cbn [bind]. rewrite Hnet.
  reflexivity.
Qed.

Lemma unregister_try_transport (m : MessageDiv) req :
  unregister_request activity email = Some req ->
  net req = NetworkError ->
  unregister_try net activity email m = None.
Proof.
  intros Hreq Hnet. unfold unregister_try. rewrite Hreq. cbn [bind]. rewrite Hnet.
  reflexivity.
Qed.

Lemma unregister_caught (pg : Page) :
  unregister_try net activity email (messageDiv pg) = None ->
  unregister net activity email pg
  = (with_message {| textContent := unregister_failed_text;
                     classList := ["message"%string; "error"%string] |} pg,
     [ConsoleError "Error unregistering:"]).
Proof. intros H. unfold unregister. rewrite H. reflexivity. Qed.

(** A click on a row runs the removal of the pair the row refers to. *)
Lemma delete_click_reference (it : participant_item) (pg : Page) :
  item_reference it = Some (activity, email) ->
  delete_click net it pg = Some (unregister net activity email pg).
Proof. intros H. unfold delete_click. rewrite H. reflexivity. Qed.

End Mutations.

(** ** Claims on the feedback of a mutation *)

Section FeedbackClaims.

(** C2, as written, fails for signup: with the network down the text
    shown is not "Failed to sign up". *)
Lemma signup_transport_text_is_longer :
  signup_request (js "Chess Club") (js "a@x.com") <> None
  /\ message_text (fst (signup_submit offline (js "a@x.com") (js "Chess Club") loading_page))
     <> js "Failed to sign up".
Proof. split; vm_compute; discriminate. Qed.

(** C2 (amended): when the request itself fails, the signup handler
    shows the fixed text "Failed to sign up. Please try again." and the
    removal handler the fixed text "Failed to unregister. Please try
    again.", both as errors. *)
Theorem transport_failure_texts
    (net : request -> fetch_result value) (email activity : jsstring)
    (it : participant_item) (pg : Page) (sreq ureq : request) :
  signup_request activity email = Some sreq -> net sreq = NetworkError ->
  item_reference it = Some (activity, email) ->
  unregister_request activity email = Some ureq -> net ureq = NetworkError ->
  (message_text (fst (signup_submit net email activity pg))
   = js "Failed to sign up. Please try again."
   /\ severity_error (fst (signup_submit net email activity pg)) = true)
  /\ exists pg' effects,
       delete_click net it pg = Some (pg', effects)
       /\ message_text pg' = js "Failed to unregister. Please try again."
       /\ severity_error pg' = true.
Proof.
  intros Hs Hsn Hit Hu Hun. split.
  - rewrite signup_submit_caught by (eapply signup_try_transport; eassumption).
    split; reflexivity.
  - rewrite (delete_click_reference net email activity it pg Hit).
    rewrite unregister_caught by (eapply unregister_try_transport; eassumption).
    eexists _, _. split; [reflexivity|]. split; reflexivity.
Qed.

Lemma transport_failure_texts_witness :
  signup_request (js "Chess Club") (js "a@x.com")
  = Some {| method := POST; url := js "/activities/Chess%20Club/signup?email=a%40x.com" |}
  /\ item_reference chess_row = Some (js "Chess Club", js "a@x.com")
  /\ unregister_request (js "Chess Club") (js "a@x.com")
     = Some {| method := DELETE;
               url := js "/activities/Chess%20Club/unregister?email=a%40x.com" |}
  /\ (message_text (fst (signup_submit offline (js "a@x.com") (js "Chess Club") loading_page))
      = js "Failed to sign up. Please try again."
      /\ severity_error (fst (signup_submit offline (js "a@x.com") (js "Chess Club") loading_page))
         = true)
  /\ exists pg' effects,
       delete_click offline chess_row loading_page = Some (pg', effects)
       /\ message_text pg' = js "Failed to unregister. Please try again."
       /\ severity_error pg' = true.
Proof.
  split; [reflexivity|]. split; [reflexivity|]. split; [reflexivity|].
  eapply (transport_failure_texts offline (js "a@x.com") (js "Chess Club")
            chess_row loading_page); reflexivity.
Defined.

(** C9: a signup answered with a failure status and a body that is not
    JSON ends exactly as a signup whose request failed: the text is the
    transport-failure text of the handler, not "An error occurred",
    since the body is parsed before the status is looked at. *)
Theorem signup_unparsable_failure_body
    (net : request -> fetch_result value) (email activity : jsstring)
    (pg : Page) (req : request) (status : N) :
  signup_request activity email = Some req ->
  net req = Response status None ->
  response_ok status = false ->
  signup_submit net email activity pg = signup_submit offline email activity pg
  /\ message_text (fst (signup_submit net email activity pg)) = signup_failed_text
  /\ signup_failed_text <> js "An error occurred".
Proof.
  intros Hreq Hnet _.
  assert (H1 : signup_try net email activity (messageDiv pg) = None)
    by (rewrite (signup_try_response net email activity _ req status None Hreq Hnet);
        reflexivity).
  assert (H2 : signup_try offline email activity (messageDiv pg) = None)
    by (eapply signup_try_transport; [eassumption|reflexivity]).
  rewrite (signup_submit_caught _ _ _ _ H1), (signup_submit_caught _ _ _ _ H2).
  repeat split. vm_compute. discriminate.
Qed.

Lemma signup_unparsable_failure_body_witness :
  signup_request (js "Chess Club") (js "a@x.com")
  = Some {| method := POST; url := js "/activities/Chess%20Club/signup?email=a%40x.com" |}
  /\ response_ok 500 = false
  /\ signup_submit (answering (Response 500 None)) (js "a@x.com") (js "Chess Club") loading_page
     = signup_submit offline (js "a@x.com") (js "Chess Club") loading_page
  /\ message_text
       (fst (signup_submit (answering (Response 500 None)) (js "a@x.com")
               (js "Chess Club") loading_page))
     = signup_failed_text
  /\ signup_failed_text <> js "An error occurred".
Proof.
  split; [reflexivity|]. split; [reflexivity|].
  eapply (signup_unparsable_failure_body (answering (Response 500 None))
            (js "a@x.com") (js "Chess Club") loading_page); reflexivity.
Defined.

(** C4, as written, fails when the body of the response is not JSON:
    a signup answered 400 with such a body has no detail to show, yet
    the text is not "An error occurred". *)
Lemma signup_failure_body_not_json :
  response_ok 400 = false
  /\ message_text
       (fst (signup_submit (answering (Response 400 None)) (js "a@x.com")
               (js "Chess Club") loading_page))
     <> js "An error occurred".
Proof. split; [reflexivity|]. vm_compute. discriminate. Qed.

(** C4 (amended): for a signup whose response has a body that parses as
    JSON and is not null: on a success status the text is the body's
    message field (that very string when it is a string) and the
    severity is success; on a failure status the text is the detail
    field when it is present and not empty, otherwise "An error
    occurred", and the severity is error. *)
Theorem signup_response_feedback
    (net : request -> fetch_result value) (email activity : jsstring)
    (pg : Page) (req : request) (status : N) (body : option value)
    (message detail : value) :
  signup_request activity email = Some req ->
  net req = Response status body ->
  body_field body (js "message") = Some message ->
  body_field body (js "detail") = Some detail ->
  message_text (fst (signup_submit net email activity pg))
  = (if response_ok status then DOMString_of message
     else if ToBoolean detail then DOMString_of detail
          else js "An error occurred")
  /\ severity_success (fst (signup_submit net email activity pg)) = response_ok status
  /\ severity_error (fst (signup_submit net email activity pg)) = negb (response_ok status).
Proof.
  intros Hreq Hnet Hmsg Hdet.
  unfold signup_submit.
  rewrite (signup_try_response net email activity _ req status _ Hreq Hnet).
  destruct body as [result|]; [|discriminate].
  cbn [body_field bind] in Hmsg, Hdet. cbn [bind].
  destruct (response_ok status).
  - rewrite Hmsg. cbn [bind]. repeat split.
  - rewrite Hdet. cbn [bind]. unfold or_else.
    destruct (ToBoolean detail); repeat split.
Qed.

Lemma signup_response_feedback_witness :
  signup_request (js "Chess Club") (js "a@x.com")
  = Some {| method := POST; url := js "/activities/Chess%20Club/signup?email=a%40x.com" |}
  /\ message_text
       (fst (signup_submit
               (answering (Response 400
                  (Some (VObject [(js "detail", VString (js "Already signed up"))]))))
               (js "a@x.com") (js "Chess Club") loading_page))
     = js "Already signed up"
  /\ severity_success
       (fst (signup_submit
               (answering (Response 400
                  (Some (VObject [(js "detail", VString (js "Already signed up"))]))))
               (js "a@x.com") (js "Chess Club") loading_page))
     = false
  /\ severity_error
       (fst (signup_submit
               (answering (Response 400
                  (Some (VObject [(js "detail", VString (js "Already signed up"))]))))
               (js "a@x.com") (js "Chess Club") loading_page))
     = true.
Proof.
  split; [reflexivity|].
  exact (signup_response_feedback
           (answering (Response 400
              (Some (VObject [(js "detail", VString (js "Already signed up"))]))))
           (js "a@x.com") (js "Chess Club") loading_page _ 400 _
           VUndefined (VString (js "Already signed up"))
           eq_refl eq_refl eq_refl eq_refl).
Defined.

(** C5, as written, fails when the body of a failure response is not
    JSON: no detail can be read, yet the text is not "Failed to
    unregister". *)
Lemma unregister_failure_body_not_json :
  item_reference chess_row = Some (js "Chess Club", js "a@x.com")
  /\ response_ok 404 = false
  /\ exists pg' effects,
       delete_click (answering (Response 404 None)) chess_row loading_page
       = Some (pg', effects)
       /\ message_text pg' <> js "Failed to unregister".
Proof.
  split; [reflexivity|]. split; [reflexivity|].
  eexists _, _. split; [reflexivity|]. vm_compute. discriminate.
Qed.

(** C5 (amended): for a removal that receives a response: on a success
    status the text is "Unregistered {email} from {activity}", built
    from the pair the row refers to whatever the body holds; on a
    failure status whose body parses as JSON and is not null, the text
    is the detail field when it is present and not empty, otherwise
    "Failed to unregister". *)
Theorem unregister_response_feedback
    (net : request -> fetch_result value) (it : participant_item)
    (activity email : jsstring) (pg : Page) (req : request)
    (status : N) (body : option value) (detail : value) :
  item_reference it = Some (activity, email) ->
  unregister_request activity email = Some req ->
  net req = Response status body ->
  response_ok status = true \/ body_field body (js "detail") = Some detail ->
  exists pg' effects,
    delete_click net it pg = Some (pg', effects)
    /\ message_text pg'
       = (if response_ok status
          then js "Unregistered " ++ email ++ js " from " ++ activity
          else if ToBoolean detail then DOMString_of detail
               else js "Failed to unregister")
    /\ severity_success pg' = response_ok status
    /\ severity_error pg' = negb (response_ok status).
Proof.
  intros Hit Hreq Hnet Hbody.
  rewrite (delete_click_reference net email activity it pg Hit).
  unfold unregister.
  rewrite (unregister_try_response net email activity _ req status body Hreq Hnet).
  destruct (response_ok status).
  - eexists _, _. split; [reflexivity|]. repeat split.
  - destruct Hbody as [Habs|Hdet]; [discriminate|].
    destruct body as [result|]; [|discriminate].
    cbn [body_field bind] in Hdet. cbn [bind]. rewrite Hdet. cbn [bind].
    unfold or_else. eexists _, _. split; [reflexivity|].
    destruct (ToBoolean detail); repeat split.
Qed.

Lemma unregister_response_feedback_witness :
  item_reference chess_row = Some (js "Chess Club", js "a@x.com")
  /\ unregister_request (js "Chess Club") (js "a@x.com")
     = Some {| method := DELETE;
               url := js "/activities/Chess%20Club/unregister?email=a%40x.com" |}
  /\ response_ok 200 = true
  /\ exists pg' effects,
       delete_click (answering (Response 200 None)) chess_row loading_page
       = Some (pg', effects)
       /\ message_text pg' = js "Unregistered a@x.com from Chess Club"
       /\ severity_success pg' = true
       /\ severity_error pg' = false.
Proof.
  split; [reflexivity|]. split; [reflexivity|]. split; [reflexivity|].
  exact (unregister_response_feedback (answering (Response 200 None)) chess_row
           (js "Chess Club") (js "a@x.com") loading_page _ 200 None VUndefined
           eq_refl eq_refl eq_refl (or_introl eq_refl)).
Defined.

End FeedbackClaims.

(** ** Claims on what follows a mutation: reload, form reset, timer *)

Section AftermathClaims.

Lemma signup_aftermath
    (net : request -> fetch_result value) (email activity : jsstring)
    (pg : Page) (req : request) (status : N) (body : option value) :
  signup_request activity email = Some req ->
  net req = Response status body ->
  snd (signup_submit net email activity pg)
  = (if body_usable body then
       if response_ok status
       then [FormReset; CallFetchActivities; SetTimeoutHide 5000]
       else [SetTimeoutHide 5000]
     else [ConsoleError "Error signing up:"])
  /\ visible (messageDiv (fst (signup_submit net email activity pg))) = true.
Proof.
  intros Hreq Hnet. unfold signup_submit.
  rewrite (signup_try_response net email activity _ req status _ Hreq Hnet).
  destruct body as [result|]; cbn [bind body_usable]; [|split; reflexivity].
  destruct (nullish result) eqn:Hnull; cbn [negb].
  - rewrite !(get_field_nullish _ _ Hnull).
    destruct (response_ok status); split; reflexivity.
  - destruct (get_field_present result (js "message") Hnull) as [m ->].
    destruct (get_field_present result (js "detail") Hnull) as [d ->].
    destruct (response_ok status); cbn [bind fst snd with_message messageDiv];
      (split; [reflexivity|apply visible_after_remove]).
Qed.

Lemma unregister_aftermath
    (net : request -> fetch_result value) (it : participant_item)
    (activity email : jsstring) (pg : Page) (req : request)
    (status : N) (body : option value) :
  item_reference it = Some (activity, email) ->
  unregister_request activity email = Some req ->
  net req = Response status body ->
  response_ok status = true ->
  exists pg',
    delete_click net it pg = Some (pg', [SetTimeoutHide 5000; CallFetchActivities])
    /\ visible (messageDiv pg') = true.
Proof.
  intros Hit Hreq Hnet Hok.
  rewrite (delete_click_reference net email activity it pg Hit).
  unfold unregister.
  rewrite (unregister_try_response net email activity _ req status body Hreq Hnet).
  rewrite Hok. eexists. split; [reflexivity|].
  cbn [fst with_message messageDiv]. apply visible_after_remove.
Qed.

(** C3, as written, fails for a signup answered with a success status
    and a body that is not JSON: nothing is reloaded. *)
Lemma signup_success_status_without_reload :
  signup_request (js "Chess Club") (js "a@x.com") <> None
  /\ response_ok 200 = true
  /\ requested CallFetchActivities
       (snd (signup_submit (answering (Response 200 None)) (js "a@x.com")
               (js "Chess Club") loading_page))
     = false.
Proof. split; [vm_compute; discriminate|]. split; reflexivity. Qed.

(** C3 (amended): a signup that received a response asks for a reload
    of the roster exactly when the status is a success and the body
    parses as JSON other than null, and resets the form in exactly the
    same case; a removal that received a response asks for a reload
    exactly when the status is a success, and never resets the form. *)
Theorem reload_after_mutation
    (net : request -> fetch_result value) (email activity : jsstring)
    (it : participant_item) (pg : Page) (sreq ureq : request)
    (sstatus ustatus : N) (sbody ubody : option value) :
  signup_request activity email = Some sreq ->
  net sreq = Response sstatus sbody ->
  item_reference it = Some (activity, email) ->
  unregister_request activity email = Some ureq ->
  net ureq = Response ustatus ubody ->
  (requested CallFetchActivities (snd (signup_submit net email activity pg))
   = response_ok sstatus && body_usable sbody
   /\ requested FormReset (snd (signup_submit net email activity pg))
      = response_ok sstatus && body_usable sbody)
  /\ exists pg' effects,
       delete_click net it pg = Some (pg', effects)
       /\ requested CallFetchActivities effects = response_ok ustatus
       /\ requested FormReset effects = false.
Proof.
  intros Hs Hsn Hit Hu Hun. split.
  - destruct (signup_aftermath net email activity pg sreq sstatus sbody Hs Hsn)
      as [-> _].
    destruct (body_usable sbody), (response_ok sstatus); split; reflexivity.
  - rewrite (delete_click_reference net email activity it pg Hit).
    unfold unregister.
    rewrite (unregister_try_response net email activity _ ureq ustatus ubody Hu Hun).
    destruct (response_ok ustatus).
    + eexists _, _. split; [reflexivity|]. split; reflexivity.
    + destruct (try! result <- ubody; _) as [[m effs]|] eqn:Htry.
      * assert (effs = []) as ->.
        { destruct ubody as [result|]; [|discriminate]. cbn [bind] in Htry.
          destruct (get_field result (js "detail")); [|discriminate].
          cbn [bind] in Htry. congruence. }
        eexists _, _. split; [reflexivity|]. split; reflexivity.
      * eexists _, _. split; [reflexivity|]. split; reflexivity.
Qed.

Lemma reload_after_mutation_witness :
  signup_request (js "Chess Club") (js "a@x.com")
  = Some {| method := POST; url := js "/activities/Chess%20Club/signup?email=a%40x.com" |}
  /\ item_reference chess_row = Some (js "Chess Club", js "a@x.com")
  /\ unregister_request (js "Chess Club") (js "a@x.com")
     = Some {| method := DELETE;
               url := js "/activities/Chess%20Club/unregister?email=a%40x.com" |}
  /\ (requested CallFetchActivities
        (snd (signup_submit
                (answering (Response 400
                   (Some (VObject [(js "detail", VString (js "Already signed up"))]))))
                (js "a@x.com") (js "Chess Club") loading_page))
      = false
      /\ requested FormReset
           (snd (signup_submit
                   (answering (Response 400
                      (Some (VObject [(js "detail", VString (js "Already signed up"))]))))
                   (js "a@x.com") (js "Chess Club") loading_page))
         = false)
  /\ exists pg' effects,
       delete_click
         (answering (Response 400
            (Some (VObject [(js "detail", VString (js "Already signed up"))]))))
         chess_row loading_page = Some (pg', effects)
       /\ requested CallFetchActivities effects = false
       /\ requested FormReset effects = false.
Proof.
  split; [reflexivity|]. split; [reflexivity|]. split; [reflexivity|].
  exact (reload_after_mutation
           (answering (Response 400
              (Some (VObject [(js "detail", VString (js "Already signed up"))]))))
           (js "a@x.com") (js "Chess Club") chess_row loading_page _ _ 400 400 _ _
           eq_refl eq_refl eq_refl eq_refl eq_refl).
Defined.

(** After [dt] ms the message is shown iff it was and no timer came due. *)
Lemma shown_elapse (dt : N) (w : World) :
  shown (elapse dt w) = shown w && negb (earlier_timer_due w dt).
Proof.
  unfold shown, elapse, earlier_timer_due. cbn [page with_message messageDiv].
  generalize (messageDiv (page w)). induction (timers w) as [|d ds IH]; intros m.
  - cbn [filter fold_left existsb negb]. rewrite andb_true_r. reflexivity.
  - cbn [filter existsb]. destruct (d <=? now w + dt); cbn [fold_left orb negb].
    + rewrite IH. unfold visible at 1. rewrite has_class_add. cbn [negb andb].
      rewrite andb_false_r. reflexivity.
    + apply IH.
Qed.

(** A handler that leaves the message visible and starts the timers
    [ts]: what is shown right away and [dt] ms later. *)
Lemma shown_after_handler (h : Page -> Page * list effect) (w : World) (dt : N) :
  visible (messageDiv (fst (h (page w)))) = true ->
  shown (run h w) = true
  /\ shown (elapse dt (run h w))
     = negb (earlier_timer_due w dt)
       && negb (existsb (fun d => d <=? now w + dt) (new_timers (now w) (snd (h (page w))))).
Proof.
  intros Hvis. assert (Hrun : shown (run h w) = true) by exact Hvis.
  split; [exact Hrun|]. rewrite shown_elapse, Hrun. cbn [andb].
  unfold earlier_timer_due, run. cbn [now timers].
  rewrite existsb_app, negb_orb. reflexivity.
Qed.

Lemma timer_due_after (t dt : N) : (t + 5000 <=? t + dt) = negb (dt <? 5000).
Proof.
  destruct (dt <? 5000) eqn:E; cbn [negb].
  - apply N.leb_gt. apply N.ltb_lt in E. lia.
  - apply N.leb_le. apply N.ltb_ge in E. lia.
Qed.

(** C1, as written, fails for a transport failure: the message a signup
    leaves when the network is down is still visible 5000 ms later, and
    a minute later. *)
Lemma transport_failure_message_stays :
  shown (run (signup_submit offline (js "a@x.com") (js "Chess Club")) fresh_world) = true
  /\ shown (elapse 5000
              (run (signup_submit offline (js "a@x.com") (js "Chess Club")) fresh_world))
     = true
  /\ shown (elapse 60000
              (run (signup_submit offline (js "a@x.com") (js "Chess Club")) fresh_world))
     = true.
Proof. repeat split; reflexivity. Qed.

(** C1 (amended): the message set by a signup that got a usable
    response (success or failure status) and by a successful removal is
    visible at once and, no other message being set, is visible [dt] ms
    later exactly when [dt] < 5000 and no timer started by an earlier
    message has come due; the message set when the request itself fails
    (signup or removal) is visible at once and no timer is started for
    it: it stays until a timer of an earlier message comes due. *)
Theorem feedback_visibility
    (net down : request -> fetch_result value) (email activity : jsstring)
    (it : participant_item) (w : World) (sreq ureq : request)
    (sstatus ustatus : N) (sbody ubody : option value) (dt : N) :
  signup_request activity email = Some sreq ->
  item_reference it = Some (activity, email) ->
  unregister_request activity email = Some ureq ->
  net sreq = Response sstatus sbody -> body_usable sbody = true ->
  net ureq = Response ustatus ubody -> response_ok ustatus = true ->
  down sreq = NetworkError -> down ureq = NetworkError ->
  (shown (run (signup_submit net email activity) w) = true
   /\ shown (elapse dt (run (signup_submit net email activity) w))
      = (dt <? 5000) && negb (earlier_timer_due w dt))
  /\ (exists w', run_click net it w = Some w'
       /\ shown w' = true
       /\ shown (elapse dt w') = (dt <? 5000) && negb (earlier_timer_due w dt))
  /\ (shown (run (signup_submit down email activity) w) = true
      /\ timers (run (signup_submit down email activity) w) = timers w
      /\ shown (elapse dt (run (signup_submit down email activity) w))
         = negb (earlier_timer_due w dt))
  /\ (exists w', run_click down it w = Some w'
       /\ shown w' = true
       /\ timers w' = timers w
       /\ shown (elapse dt w') = negb (earlier_timer_due w dt)).
Proof.
  intros Hs Hit Hu Hsn Hsb Hun Huok Hds Hdu.
  split; [|split; [|split]].
  - destruct (signup_aftermath net email activity (page w) sreq sstatus sbody Hs Hsn)
      as [Heff Hvis].
    destruct (shown_after_handler (signup_submit net email activity) w dt Hvis)
      as [H0 H1].
    split; [exact H0|]. rewrite H1, Heff, Hsb.
    destruct (response_ok sstatus); cbn [new_timers flat_map app existsb];
      rewrite timer_due_after, orb_false_r, negb_involutive; apply andb_comm.
  - destruct (unregister_aftermath net it activity email (page w) ureq ustatus ubody
                Hit Hu Hun Huok) as (pg' & Hclick & Hvis).
    unfold run_click. rewrite Hclick. cbn [bind]. eexists. split; [reflexivity|].
    destruct (shown_after_handler
                (fun _ => (pg', [SetTimeoutHide 5000; CallFetchActivities])) w dt Hvis)
      as [H0 H1].
    split; [exact H0|]. rewrite H1. cbn [snd new_timers flat_map app existsb].
    rewrite timer_due_after, orb_false_r, negb_involutive. apply andb_comm.
  - assert (Heq := signup_submit_caught down email activity (page w)
                     (signup_try_transport down email activity _ sreq Hs Hds)).
    assert (Hvis : visible (messageDiv (fst (signup_submit down email activity (page w))))
                   = true) by (rewrite Heq; reflexivity).
    destruct (shown_after_handler (signup_submit down email activity) w dt Hvis)
      as [H0 H1].
    split; [exact H0|]. split.
    + unfold run. cbn [timers]. rewrite Heq. cbn [snd new_timers flat_map].
      apply app_nil_r.
    + rewrite H1, Heq. cbn [snd new_timers flat_map existsb negb].
      apply andb_true_r.
  - assert (Heq := unregister_caught down email activity (page w)
                     (unregister_try_transport down email activity _ ureq Hu Hdu)).
    unfold run_click.
    rewrite (delete_click_reference down email activity it (page w) Hit), Heq.
    cbn [bind]. eexists. split; [reflexivity|].
    match goal with
    | |- context [run ?h w] =>
        destruct (shown_after_handler h w dt eq_refl) as [H0 H1]
    end.
    split; [exact H0|]. split.
    + unfold run. cbn [timers snd new_timers flat_map]. apply app_nil_r.
    + rewrite H1. cbn [snd new_timers flat_map existsb negb]. apply andb_true_r.
Qed.

Lemma feedback_visibility_witness :
  signup_request (js "Chess Club") (js "a@x.com")
  = Some {| method := POST; url := js "/activities/Chess%20Club/signup?email=a%40x.com" |}
  /\ item_reference chess_row = Some (js "Chess Club", js "a@x.com")
  /\ unregister_request (js "Chess Club") (js "a@x.com")
     = Some {| method := DELETE;
               url := js "/activities/Chess%20Club/unregister?email=a%40x.com" |}
  /\ response_ok 200 = true
  /\ (shown (run (signup_submit signup_ok_server (js "a@x.com") (js "Chess Club"))
               fresh_world) = true
      /\ shown (elapse 4999
                  (run (signup_submit signup_ok_server (js "a@x.com") (js "Chess Club"))
                     fresh_world))
         = true)
  /\ (exists w', run_click signup_ok_server chess_row fresh_world = Some w'
       /\ shown w' = true
       /\ shown (elapse 4999 w') = true)
  /\ (shown (run (signup_submit offline (js "a@x.com") (js "Chess Club")) fresh_world)
      = true
      /\ timers (run (signup_submit offline (js "a@x.com") (js "Chess Club")) fresh_world)
         = []
      /\ shown (elapse 4999
                  (run (signup_submit offline (js "a@x.com") (js "Chess Club"))
                     fresh_world))
         = true)
  /\ (exists w', run_click offline chess_row fresh_world = Some w'
       /\ shown w' = true
       /\ timers w' = []
       /\ shown (elapse 4999 w') = true).
Proof.
  split; [reflexivity|]. split; [reflexivity|]. split; [reflexivity|].
  split; [reflexivity|].
  exact (feedback_visibility signup_ok_server offline (js "a@x.com") (js "Chess Club")
           chess_row fresh_world _ _ 200 200 _ _ 4999
           eq_refl eq_refl eq_refl eq_refl eq_refl eq_refl eq_refl eq_refl eq_refl).
Defined.

End AftermathClaims.

(** ** Further properties of the roster renderer *)

Section RendererMore.

Lemma render_items_each (name : jsstring) (ps : list jsstring) :
  forall rows, render_items name ps = Some rows ->
    Forall2 (fun p r => render_item name p = Some r) ps rows.
Proof.
  induction ps as [|p ps IH]; cbn [render_items]; intros rows H.
  - injection H as <-. constructor.
  - destruct (render_item name p) as [r|] eqn:Hr; [|discriminate].
    destruct (render_items name ps) as [rs|]; [|discriminate].
    cbn [bind] in H. injection H as <-. constructor; [exact Hr|apply IH; reflexivity].
Qed.

(** The rows of a card are the rows of its participants, in order. *)
Lemma activityCard_rows (name : jsstring) (details : Activity) (card : child) :
  activityCard name details = Some card ->
  Forall2 (fun p it => exists html, render_item name p = Some (html, it))
    (participants details) (rows_of card).
Proof.
  unfold activityCard, participantsSection.
  destruct (participants details) as [|p ps] eqn:Hps; cbn [List.length].
  - cbn [bind fst snd]. intros [= <-]. constructor.
  - destruct (render_items name _) as [rows|] eqn:Hrows; [|discriminate].
    cbn [bind fst snd]. intros [= <-]. cbn [rows_of].
    apply render_items_each in Hrows. clear Hps.
    induction Hrows as [|q [h it] qs rs Hq _ IH]; cbn [map snd]; constructor.
    + exists h. exact Hq.
    + exact IH.
Qed.

Lemma all_rows_attach (pg : Page) :
  all_rows (attach_handlers pg) = map add_listener (all_rows pg).
Proof.
  unfold all_rows, attach_handlers. cbn [activitiesList].
  induction (activitiesList pg) as [|c cs IH]; [reflexivity|].
  cbn [map flat_map]. rewrite IH, map_app. destruct c; reflexivity.
Qed.

(** The message element is outside the loop's reach. *)
Lemma populate_with_message (c : ActivityCollection) :
  forall (pg : Page) (m : MessageDiv),
    populate c (with_message m pg)
    = (with_message m (fst (populate c pg)), snd (populate c pg)).
Proof.
  induction c as [|[name details] c IH]; intros pg m; cbn [populate].
  - reflexivity.
  - destruct (activityCard name details) as [card|]; [|reflexivity].
    rewrite <- IH. reflexivity.
Qed.

Lemma fetchActivities_message net (pg : Page) :
  messageDiv (fst (fetchActivities net pg)) = messageDiv pg.
Proof.
  unfold fetchActivities.
  destruct (net activities_request) as [|status [c|]]; try reflexivity.
  pose proof (populate_with_message c
                {| activitiesList := []; activitySelect := [sentinel_option];
                   messageDiv := messageDiv pg |} (messageDiv pg)) as H.
  unfold with_message in H at 1. cbn [activitiesList activitySelect] in H.
  rewrite H. destruct (snd (populate c _)); reflexivity.
Qed.

(** X1: after a load that rendered the collection, whatever the page
    held before, every row of the list has exactly one click listener on
    its delete button. *)
Theorem rendered_rows_have_one_listener
    (net : request -> fetch_result ActivityCollection) (pg : Page)
    (status : N) (c : ActivityCollection) :
  net activities_request = Response status (Some c) ->
  snd (fetchActivities net pg) = [] ->
  Forall (fun it => click_handlers it = 1%nat) (all_rows (fst (fetchActivities net pg))).
Proof.
  intros Hnet Hok.
  destruct (fetchActivities_rendered net pg status c Hnet Hok) as (cards & Hall & Heq).
  rewrite Heq. cbn [fst]. rewrite all_rows_attach. unfold all_rows.
  cbn [activitiesList]. clear Heq Hnet Hok.
  induction Hall as [|[name details] card c' cards' Hcard _ IH]; [constructor|].
  cbn [flat_map map]. rewrite map_app. apply Forall_app. split; [|exact IH].
  cbn [fst snd] in Hcard. apply activityCard_rows in Hcard.
  induction Hcard as [|p it ps its (html & Hit) _ IHc]; [constructor|].
  cbn [map]. constructor; [|exact IHc].
  unfold render_item in Hit.
  destruct (encodeURIComponent name); [|discriminate].
  destruct (encodeURIComponent p); [|discriminate].
  cbn [bind] in Hit. injection Hit as _ <-. reflexivity.
Qed.

Lemma rendered_rows_have_one_listener_witness :
  chess_server activities_request = Response 200 (Some chess_club)
  /\ snd (fetchActivities chess_server (fst (fetchActivities chess_server loading_page))) = []
  /\ Forall (fun it => click_handlers it = 1%nat)
       (all_rows
          (fst (fetchActivities chess_server
                  (fst (fetchActivities chess_server loading_page))))).
Proof.
  split; [reflexivity|]. split; [reflexivity|].
  apply (rendered_rows_have_one_listener chess_server _ 200 chess_club); reflexivity.
Defined.

(** X2: loading twice in a row from the same answer gives the page and
    the effects of loading once, whether the answer renders, fails to
    parse, or throws while rendering. *)
Theorem fetchActivities_idempotent
    (net : request -> fetch_result ActivityCollection) (pg : Page) :
  fetchActivities net (fst (fetchActivities net pg)) = fetchActivities net pg.
Proof.
  pose proof (fetchActivities_message net pg) as Hm.
  unfold fetchActivities in *.
  destruct (net activities_request) as [|status [c|]]; try reflexivity.
  rewrite Hm. reflexivity.
Qed.

(** X3: when the body parses, the list area, the select and the effects
    of a load are those of the answer alone: nothing of the page shown
    before survives, except the message element, which is kept. *)
Theorem load_replaces_snapshot
    (net : request -> fetch_result ActivityCollection) (pg1 pg2 : Page)
    (status : N) (c : ActivityCollection) :
  net activities_request = Response status (Some c) ->
  activitiesList (fst (fetchActivities net pg1))
  = activitiesList (fst (fetchActivities net pg2))
  /\ activitySelect (fst (fetchActivities net pg1))
     = activitySelect (fst (fetchActivities net pg2))
  /\ snd (fetchActivities net pg1) = snd (fetchActivities net pg2)
  /\ messageDiv (fst (fetchActivities net pg1)) = messageDiv pg1.
Proof.
  intros Hnet. split; [|split; [|split; [|apply fetchActivities_message]]];
    unfold fetchActivities; rewrite Hnet;
    pose proof (populate_with_message c
                  {| activitiesList := []; activitySelect := [sentinel_option];
                     messageDiv := messageDiv pg2 |} (messageDiv pg1)) as H;
    unfold with_message in H at 1; cbn [activitiesList activitySelect] in H;
    rewrite H;
    destruct (populate c {| activitiesList := []; activitySelect := [sentinel_option];
                            messageDiv := messageDiv pg2 |}) as [pg' b];
    cbn [fst snd]; destruct b; reflexivity.
Qed.

Lemma load_replaces_snapshot_witness :
  chess_server activities_request = Response 200 (Some chess_club)
  /\ activitiesList (fst (fetchActivities chess_server loading_page))
     = activitiesList
         (fst (fetchActivities chess_server (fst (fetchActivities offline loading_page))))
  /\ activitySelect (fst (fetchActivities chess_server loading_page))
     = activitySelect
         (fst (fetchActivities chess_server (fst (fetchActivities offline loading_page))))
  /\ snd (fetchActivities chess_server loading_page)
     = snd (fetchActivities chess_server (fst (fetchActivities offline loading_page)))
  /\ messageDiv (fst (fetchActivities chess_server loading_page)) = messageDiv loading_page.
Proof.
  split; [reflexivity|].
  exact (load_replaces_snapshot chess_server loading_page
           (fst (fetchActivities offline loading_page)) 200 chess_club eq_refl).
Defined.

Lemma render_items_encodable (name : jsstring) (ps : list jsstring) :
  match render_items name ps with Some _ => true | None => false end
  = match ps with
    | [] => true
    | _ => match encodeURIComponent name with Some _ => true | None => false end
           && forallb (fun p => match encodeURIComponent p with
                                | Some _ => true
                                | None => false
                                end) ps
    end.
Proof.
  induction ps as [|p ps IH]; [reflexivity|].
  cbn [render_items forallb]. unfold render_item at 1.
  destruct (encodeURIComponent name) as [a|]; cbn [bind andb]; [|reflexivity].
  destruct (encodeURIComponent p) as [e|]; cbn [bind andb]; [|reflexivity].
  destruct (render_items name ps) as [rs|]; cbn [bind];
    (destruct ps; [first [reflexivity|discriminate]|cbn [andb] in IH; exact IH]).
Qed.

Lemma entry_renders_encodable (entry : jsstring * Activity) :
  entry_renders entry
  = match participants (snd entry) with
    | [] => true
    | ps => match encodeURIComponent (fst entry) with Some _ => true | None => false end
            && forallb (fun p => match encodeURIComponent p with
                                 | Some _ => true
                                 | None => false
                                 end) ps
    end.
Proof.
  destruct entry as [name details]. cbn [fst snd].
  pose proof (render_items_encodable name (participants details)) as H.
  unfold entry_renders, activityCard, participantsSection. cbn [fst snd].
  destruct (participants details) as [|p ps]; [reflexivity|].
  cbn [List.length]. rewrite <- H.
  destruct (render_items name (p :: ps)); reflexivity.
Qed.

(** X4: on an entry of the documented shape (description, schedule, a
    number of places, a list of participant strings) the loop body
    throws exactly when the activity has at least one participant and
    its name or one of its participants cannot be percent-encoded; such
    an entry without participants is rendered whatever its name. *)
Theorem entry_renders_iff_encodable (entry : jsstring * Activity) :
  entry_renders entry
  = match participants (snd entry) with
    | [] => true
    | ps => match encodeURIComponent (fst entry) with Some _ => true | None => false end
            && forallb (fun p => match encodeURIComponent p with
                                 | Some _ => true
                                 | None => false
                                 end) ps
    end.
Proof.
  destruct entry as [name details].
  rewrite (entry_renders_encodable (name, details)). reflexivity.
Qed.

Lemma entry_well_formed_renders (entry : jsstring * Activity) :
  entry_well_formed entry = true -> entry_renders entry = true.
Proof.
  rewrite entry_renders_encodable. unfold entry_well_formed.
  destruct (participants (snd entry)) as [|p ps]; [reflexivity|].
  intros H. apply andb_prop in H. destruct H as [Hn Hps].
  destruct (well_formed_encodable _ Hn) as (_ & a & ->). cbn [andb].
  apply forallb_forall. intros q Hq.
  rewrite forallb_forall in Hps.
  destruct (well_formed_encodable _ (Hps q Hq)) as (_ & e & ->). reflexivity.
Qed.

Lemma populate_all_render (c : ActivityCollection) :
  forallb entry_renders c = true -> forall pg, snd (populate c pg) = false.
Proof.
  induction c as [|[name details] c IH]; cbn [forallb populate]; intros H pg.
  - reflexivity.
  - apply andb_prop in H. destruct H as [Hr Hc]. unfold entry_renders in Hr.
    cbn [fst snd] in Hr. destruct (activityCard name details); [|discriminate].
    apply IH. exact Hc.
Qed.

(** X5: a collection in which every activity either has no participant
    or has a name and participants free of unpaired surrogates is
    rendered in full: the load reports no error. *)
Theorem well_formed_collection_renders
    (net : request -> fetch_result ActivityCollection) (pg : Page)
    (status : N) (c : ActivityCollection) :
  net activities_request = Response status (Some c) ->
  forallb entry_well_formed c = true ->
  snd (fetchActivities net pg) = []
  /\ List.length (activitiesList (fst (fetchActivities net pg))) = List.length c.
Proof.
  intros Hnet Hwf.
  assert (Hr : forallb entry_renders c = true).
  { apply forallb_forall. intros e He. apply entry_well_formed_renders.
    rewrite forallb_forall in Hwf. exact (Hwf e He). }
  assert (Hok : snd (fetchActivities net pg) = []).
  { unfold fetchActivities. rewrite Hnet.
    pose proof (populate_all_render c Hr
                  {| activitiesList := []; activitySelect := [sentinel_option];
                     messageDiv := messageDiv pg |}) as Hp.
    destruct (populate c _) as [pg' b]. cbn [snd] in Hp. subst b. reflexivity. }
  split; [exact Hok|].
  destruct (fetchActivities_rendered net pg status c Hnet Hok) as (cards & Hall & ->).
  cbn [fst attach_handlers activitiesList]. rewrite length_map.
  symmetry. exact (Forall2_length Hall).
Qed.

Lemma well_formed_collection_renders_witness :
  answering (Response 200 (Some (chess_club ++ [gym_entry]))) activities_request
  = Response 200 (Some (chess_club ++ [gym_entry]))
  /\ forallb entry_well_formed (chess_club ++ [gym_entry]) = true
  /\ snd (fetchActivities (answering (Response 200 (Some (chess_club ++ [gym_entry]))))
            loading_page) = []
  /\ List.length
       (activitiesList
          (fst (fetchActivities (answering (Response 200 (Some (chess_club ++ [gym_entry]))))
                  loading_page)))
     = List.length (chess_club ++ [gym_entry]).
Proof.
  split; [reflexivity|]. split; [reflexivity|].
  apply (well_formed_collection_renders _ loading_page 200 (chess_club ++ [gym_entry]));
    reflexivity.
Defined.

Lemma populate_stops (c1 c2 : ActivityCollection) (bad : jsstring * Activity) :
  forallb entry_renders c1 = true -> entry_renders bad = false ->
  forall pg,
    snd (populate (c1 ++ bad :: c2) pg) = true
    /\ activitySelect (fst (populate (c1 ++ bad :: c2) pg))
       = activitySelect pg ++ map name_option (map fst c1)
    /\ messageDiv (fst (populate (c1 ++ bad :: c2) pg)) = messageDiv pg.
Proof.
  intros H1 Hbad. induction c1 as [|[name details] c1 IH]; intros pg.
  - destruct bad as [name details]. unfold entry_renders in Hbad. cbn [fst snd] in Hbad.
    cbn [app populate map]. destruct (activityCard name details); [discriminate|].
    rewrite app_nil_r. repeat split.
  - cbn [forallb] in H1. apply andb_prop in H1. destruct H1 as [Hr Hc].
    unfold entry_renders in Hr. cbn [fst snd] in Hr.
    cbn [app populate map]. destruct (activityCard name details) as [card|]; [|discriminate].
    destruct (IH Hc {| activitiesList := activitiesList pg ++ [card];
                       activitySelect := activitySelect pg ++ [name_option name];
                       messageDiv := messageDiv pg |}) as (Hs & Hsel & Hm).
    split; [exact Hs|]. split; [|exact Hm].
    rewrite Hsel. cbn [activitySelect fst]. rewrite <- app_assoc. reflexivity.
Qed.

(** X6: when the loop body throws on an entry, the list area shows the
    failure notice only, but the select keeps the options appended for
    the entries before it - those and no others. *)
Theorem render_failure_keeps_earlier_options
    (net : request -> fetch_result ActivityCollection) (pg : Page) (status : N)
    (c1 c2 : ActivityCollection) (bad : jsstring * Activity) :
  net activities_request = Response status (Some (c1 ++ bad :: c2)) ->
  forallb entry_renders c1 = true ->
  entry_renders bad = false ->
  fetchActivities net pg
  = ({| activitiesList := [failure_notice];
        activitySelect := sentinel_option :: map name_option (map fst c1);
        messageDiv := messageDiv pg |},
     [ConsoleError "Error fetching activities:"]).
Proof.
  intros Hnet H1 Hbad. unfold fetchActivities. rewrite Hnet.
  destruct (populate_stops c1 c2 bad H1 Hbad
              {| activitiesList := []; activitySelect := [sentinel_option];
                 messageDiv := messageDiv pg |}) as (Hs & Hsel & Hm).
  destruct (populate (c1 ++ bad :: c2) _) as [pg' b]. cbn [fst snd] in Hs, Hsel, Hm.
  subst b. unfold load_failed. rewrite Hsel, Hm. reflexivity.
Qed.

Lemma render_failure_keeps_earlier_options_witness :
  answering (Response 200 (Some (chess_club ++ broken_entry :: [gym_entry])))
    activities_request
  = Response 200 (Some (chess_club ++ broken_entry :: [gym_entry]))
  /\ forallb entry_renders chess_club = true
  /\ entry_renders broken_entry = false
  /\ fetchActivities
       (answering (Response 200 (Some (chess_club ++ broken_entry :: [gym_entry]))))
       loading_page
     = ({| activitiesList := [failure_notice];
           activitySelect := sentinel_option :: map name_option (map fst chess_club);
           messageDiv := messageDiv loading_page |},
        [ConsoleError "Error fetching activities:"]).
Proof.
  split; [reflexivity|]. split; [reflexivity|]. split; [reflexivity|].
  apply (render_failure_keeps_earlier_options _ loading_page 200 chess_club [gym_entry]
           broken_entry); reflexivity.
Defined.

Lemma code_units_check (s : jsstring) :
  forallb (fun c => c <? 65536) s = true -> code_units s.
Proof.
  intros H. apply Forall_forall. intros c Hc.
  rewrite forallb_forall in H. apply N.ltb_lt. exact (H c Hc).
Qed.

Lemma item_reference_add_listener (it : participant_item) :
  item_reference (add_listener it) = item_reference it.
Proof. reflexivity. Qed.

End RendererMore.

(** ** Further properties of percent-encoding *)

Section URIMore.

Lemma pctOctets_length (bs : list N) : List.length (pctOctets bs) = (3 * List.length bs)%nat.
Proof.
  induction bs as [|b bs IH]; [reflexivity|].
  cbn [pctOctets flat_map pctOctet app List.length]. fold (pctOctets bs). lia.
Qed.

Lemma utf8_octets_nonempty (cp : N) : (1 <= List.length (utf8_octets cp))%nat.
Proof.
  unfold utf8_octets.
  destruct (cp <? 128); [|destruct (cp <? 2048); [|destruct (cp <? 65536)]];
    cbn [List.length]; lia.
Qed.

(** Encoding never shortens, and keeps the length only of strings made
    of unreserved characters. *)
Lemma encode_length_bounded (n : nat) :
  forall (s e : jsstring),
    (List.length s <= n)%nat ->
    encodeURIComponent s = Some e ->
    (List.length s <= List.length e)%nat
    /\ (List.length e = List.length s -> forallb uriUnreserved s = true).
Proof.
  induction n as [|n IH]; intros s e Hlen Henc.
  - destruct s; [|cbn in Hlen; lia]. cbn in Henc. injection Henc as <-.
    split; [lia|reflexivity].
  - destruct s as [|c rest].
    { cbn in Henc. injection Henc as <-. split; [lia|reflexivity]. }
    cbn [List.length] in Hlen. cbn [encodeURIComponent] in Henc. cbn [forallb].
    destruct (uriUnreserved c) eqn:Hun.
    { destruct (encodeURIComponent rest) as [r|] eqn:Hr; [|discriminate].
      cbn [bind] in Henc. injection Henc as <-.
      destruct (IH rest r) as [Hle Heq]; [lia|assumption|].
      cbn [List.length andb]. split; [lia|]. intros H. apply Heq. lia. }
    destruct (is_trail c); [discriminate|].
    destruct (is_lead c).
    { destruct rest as [|d rest']; [discriminate|].
      destruct (is_trail d); [|discriminate].
      destruct (encodeURIComponent rest') as [r|] eqn:Hr; [|discriminate].
      cbn [bind] in Henc. injection Henc as <-. cbn [List.length] in *.
      destruct (IH rest' r) as [Hle _]; [lia|assumption|].
      rewrite length_app, pctOctets_length.
      pose proof (utf8_octets_bytes (pair_code_point c d)) as _.
      assert (H4 : List.length (utf8_octets (pair_code_point c d)) = 4%nat
                   \/ (1 <= List.length (utf8_octets (pair_code_point c d)))%nat)
        by (right; apply utf8_octets_nonempty).
      assert (Hp : (65536 <=? pair_code_point c d) = true)
        by (apply N.leb_le; unfold pair_code_point; lia).
      assert (Hl : List.length (utf8_octets (pair_code_point c d)) = 4%nat).
      { unfold utf8_octets. apply N.leb_le in Hp.
        replace (pair_code_point c d <? 128) with false
          by (symmetry; apply N.ltb_ge; lia).
        replace (pair_code_point c d <? 2048) with false
          by (symmetry; apply N.ltb_ge; lia).
        replace (pair_code_point c d <? 65536) with false
          by (symmetry; apply N.ltb_ge; lia).
        reflexivity. }
      rewrite Hl. split; [lia|]. intros H. exfalso. lia. }
    destruct (encodeURIComponent rest) as [r|] eqn:Hr; [|discriminate].
    cbn [bind] in Henc. injection Henc as <-.
    destruct (IH rest r) as [Hle _]; [lia|assumption|].
    rewrite length_app, pctOctets_length. pose proof (utf8_octets_nonempty c).
    cbn [List.length]. split; [lia|]. intros H'. exfalso. lia.
Qed.

Lemma encode_unreserved (s : jsstring) :
  forallb uriUnreserved s = true -> encodeURIComponent s = Some s.
Proof.
  induction s as [|c s IH]; [reflexivity|].
  cbn [forallb encodeURIComponent]. intros H. apply andb_prop in H.
  destruct H as [Hc Hs]. rewrite Hc, (IH Hs). reflexivity.
Qed.

(** X8: percent-encoding returns a string made of letters, digits and
    [- _ . ! ~ * ' ( )] as it is, and any other string that it can
    encode strictly longer. *)
Theorem encode_fixes_unreserved_only (s e : jsstring) :
  encodeURIComponent s = Some e ->
  if forallb uriUnreserved s then e = s else (List.length s < List.length e)%nat.
Proof.
  intros He. destruct (forallb uriUnreserved s) eqn:Hun.
  - rewrite (encode_unreserved s Hun) in He. congruence.
  - destruct (encode_length_bounded (List.length s) s e (le_n _) He) as [Hle Heq].
    destruct (Nat.eq_dec (List.length e) (List.length s)) as [E|E]; [|lia].
    rewrite (Heq E) in Hun. discriminate.
Qed.

Lemma encode_fixes_unreserved_only_witness :
  encodeURIComponent (js "Chess Club") = Some (js "Chess%20Club")
  /\ (List.length (js "Chess Club") < List.length (js "Chess%20Club"))%nat.
Proof.
  split; [reflexivity|].
  exact (encode_fixes_unreserved_only (js "Chess Club") (js "Chess%20Club") eq_refl).
Defined.

Lemma encode_injective (s1 s2 e : jsstring) :
  code_units s1 -> code_units s2 ->
  encodeURIComponent s1 = Some e -> encodeURIComponent s2 = Some e -> s1 = s2.
Proof.
  intros H1 H2 E1 E2.
  pose proof (decode_encode s1 e H1 E1) as D1.
  pose proof (decode_encode s2 e H2 E2) as D2. congruence.
Qed.

Lemma encoded_chars (s e : jsstring) :
  code_units s -> encodeURIComponent s = Some e ->
  Forall (fun c => uriUnreserved c = true \/ c = 37) e.
Proof. intros Hcu He. exact (encoded_chars_bounded (List.length s) s e (le_n _) Hcu He). Qed.

(** Two strings split at their first slash. *)
Lemma split_at_slash (l1 l2 r1 r2 : jsstring) :
  ~ In 47 l1 -> ~ In 47 l2 ->
  l1 ++ 47 :: r1 = l2 ++ 47 :: r2 -> l1 = l2 /\ r1 = r2.
Proof.
  revert l2. induction l1 as [|a l1 IH]; intros [|b l2] H1 H2 H; cbn [app] in H.
  - split; [reflexivity|congruence].
  - injection H as Hb _. exfalso. apply H2. left. congruence.
  - injection H as Ha _. exfalso. apply H1. left. exact Ha.
  - injection H as <- H.
    destruct (IH l2) as [-> ->]; [| |exact H|split; reflexivity].
    + intros Hin. apply H1. right. exact Hin.
    + intros Hin. apply H2. right. exact Hin.
Qed.

Lemma encoded_no_slash (s e : jsstring) :
  code_units s -> encodeURIComponent s = Some e -> ~ In 47 e.
Proof.
  intros Hcu He Hin. pose proof (encoded_chars s e Hcu He) as Hall.
  rewrite Forall_forall in Hall. destruct (Hall _ Hin) as [H|H]; discriminate.
Qed.

Lemma mutation_url_injective (sep a1 e1 a2 e2 : jsstring) :
  ~ In 47 a1 -> ~ In 47 a2 ->
  a1 ++ (47 :: sep) ++ e1 = a2 ++ (47 :: sep) ++ e2 ->
  a1 = a2 /\ e1 = e2.
Proof.
  intros H1 H2 H. cbn [app] in H.
  destruct (split_at_slash _ _ _ _ H1 H2 H) as [Ha He].
  split; [exact Ha|]. exact (app_inv_head _ _ _ He).
Qed.

(** X9: a signup request, and a removal request, determines the
    (activity, email) pair it was built from: two pairs that give the
    same request are the same pair, even when a name holds a slash, a
    question mark or an ampersand. *)
Theorem request_determines_pair (a1 e1 a2 e2 : jsstring) (r : request) :
  code_units a1 -> code_units e1 -> code_units a2 -> code_units e2 ->
  (signup_request a1 e1 = Some r /\ signup_request a2 e2 = Some r)
  \/ (unregister_request a1 e1 = Some r /\ unregister_request a2 e2 = Some r) ->
  a1 = a2 /\ e1 = e2.
Proof.
  intros Ha1 He1 Ha2 He2 H.
  assert (Hgen : forall x1 y1 x2 y2 sep,
             encodeURIComponent a1 = Some x1 -> encodeURIComponent e1 = Some y1 ->
             encodeURIComponent a2 = Some x2 -> encodeURIComponent e2 = Some y2 ->
             x1 ++ (47 :: sep) ++ y1 = x2 ++ (47 :: sep) ++ y2 ->
             a1 = a2 /\ e1 = e2).
  { intros x1 y1 x2 y2 sep X1 Y1 X2 Y2 Hurl.
    destruct (mutation_url_injective sep x1 y1 x2 y2) as [-> ->];
      [exact (encoded_no_slash a1 x1 Ha1 X1)|exact (encoded_no_slash a2 x2 Ha2 X2)
      |exact Hurl|].
    split; eapply encode_injective; eassumption. }
  destruct H as [[H1 H2]|[H1 H2]];
    unfold signup_request, unregister_request in H1, H2;
    destruct (encodeURIComponent a1) as [x1|] eqn:X1; try discriminate;
    destruct (encodeURIComponent e1) as [y1|] eqn:Y1; try discriminate;
    destruct (encodeURIComponent a2) as [x2|] eqn:X2; try discriminate;
    destruct (encodeURIComponent e2) as [y2|] eqn:Y2; try discriminate;
    cbn [bind] in H1, H2; rewrite <- H2 in H1;
    apply (f_equal (option_map url)) in H1; cbn [option_map url] in H1;
    injection H1 as Hurl.
  - exact (Hgen x1 y1 x2 y2 (js "signup?email=") eq_refl eq_refl eq_refl eq_refl Hurl).
  - exact (Hgen x1 y1 x2 y2 (js "unregister?email=") eq_refl eq_refl eq_refl eq_refl Hurl).
Qed.

Lemma request_determines_pair_witness :
  code_units (js "a/b?c&d") /\ code_units (js "a@x.com")
  /\ signup_request (js "a/b?c&d") (js "a@x.com")
     = Some {| method := POST;
               url := js "/activities/a%2Fb%3Fc%26d/signup?email=a%40x.com" |}
  /\ js "a/b?c&d" = js "a/b?c&d" /\ js "a@x.com" = js "a@x.com".
Proof.
  assert (H1 : code_units (js "a/b?c&d")) by (repeat constructor).
  assert (H2 : code_units (js "a@x.com")) by (repeat constructor).
  split; [exact H1|]. split; [exact H2|]. split; [reflexivity|].
  exact (request_determines_pair (js "a/b?c&d") (js "a@x.com") (js "a/b?c&d")
           (js "a@x.com") _ H1 H2 H1 H2 (or_introl (conj eq_refl eq_refl))).
Defined.

End URIMore.

(** ** Further properties of the removal control *)

Section ControlMore.

Lemma render_item_attributes (name p html : jsstring) (it : participant_item) :
  render_item name p = Some (html, it) ->
  encodeURIComponent name = Some (data_activity it)
  /\ encodeURIComponent p = Some (data_email it)
  /\ span_text it = p
  /\ html = participant_item_html (data_activity it) (data_email it) p.
Proof.
  unfold render_item.
  destruct (encodeURIComponent name) as [a|]; [|discriminate].
  destruct (encodeURIComponent p) as [e|]; [|discriminate].
  cbn [bind]. intros [= <- <-]. repeat split.
Qed.

(** X10: the data attributes of a row hold only letters, digits, the
    marks [- _ . ! ~ * ' ( )] and [%]: no quote, ampersand, angle
    bracket or space, whatever the activity name and the email are. *)
Theorem row_attributes_inert (name p html : jsstring) (it : participant_item) :
  code_units name -> code_units p ->
  render_item name p = Some (html, it) ->
  Forall (fun c => uriUnreserved c = true \/ c = 37) (data_activity it ++ data_email it)
  /\ Forall (fun c => c < 128 /\ c <> 34 /\ c <> 38 /\ c <> 60 /\ c <> 62 /\ c <> 32)
       (data_activity it ++ data_email it).
Proof.
  intros Hn Hp Hr. destruct (render_item_attributes _ _ _ _ Hr) as (Ha & He & _).
  assert (Hall : Forall (fun c => uriUnreserved c = true \/ c = 37)
                   (data_activity it ++ data_email it))
    by (apply Forall_app; split;
        [exact (encoded_chars name _ Hn Ha)|exact (encoded_chars p _ Hp He)]).
  split; [exact Hall|].
  eapply Forall_impl; [|exact Hall]. intros c [Hc| ->].
  - destruct (uriUnreserved_ascii c Hc) as [Hlt _].
    split; [exact Hlt|]. repeat split; intros ->; vm_compute in Hc; discriminate Hc.
  - repeat split; discriminate.
Qed.

Lemma row_attributes_inert_witness :
  code_units sample_name /\ code_units sample_email
  /\ render_item sample_name sample_email
     = Some (participant_item_html
               (js "Chess%20Club%20%26%20Co") (js "%C3%A9%E2%82%AC%F0%9F%98%80%40x.com")
               sample_email,
             {| data_activity := js "Chess%20Club%20%26%20Co";
                data_email := js "%C3%A9%E2%82%AC%F0%9F%98%80%40x.com";
                span_text := sample_email; click_handlers := 0 |})
  /\ Forall (fun c => uriUnreserved c = true \/ c = 37)
       (js "Chess%20Club%20%26%20Co" ++ js "%C3%A9%E2%82%AC%F0%9F%98%80%40x.com")
  /\ Forall (fun c => c < 128 /\ c <> 34 /\ c <> 38 /\ c <> 60 /\ c <> 62 /\ c <> 32)
       (js "Chess%20Club%20%26%20Co" ++ js "%C3%A9%E2%82%AC%F0%9F%98%80%40x.com").
Proof.
  assert (H1 : code_units sample_name) by (apply code_units_check; reflexivity).
  assert (H2 : code_units sample_email) by (apply code_units_check; reflexivity).
  split; [exact H1|]. split; [exact H2|]. split; [reflexivity|].
  exact (row_attributes_inert sample_name sample_email _ _ H1 H2 eq_refl).
Defined.

(** A string that ends in the middle of an escape cannot be decoded. *)
Lemma unescape_trailing_percent_bounded (n : nat) :
  forall s : jsstring, (List.length s <= n)%nat -> unescape (s ++ [37]) = None.
Proof.
  induction n as [|n IH]; intros s Hlen.
  - destruct s; [reflexivity|cbn in Hlen; lia].
  - destruct s as [|c rest]; [reflexivity|]. cbn [List.length] in Hlen.
    cbn [app unescape]. destruct (c =? 37).
    + destruct rest as [|h [|l rest']]; cbn [app].
      * reflexivity.
      * unfold parseHexOctet. destruct (hexValue h); reflexivity.
      * cbn [List.length] in Hlen. rewrite (IH rest') by lia.
        destruct (parseHexOctet h l); reflexivity.
    + rewrite (IH rest) by lia. reflexivity.
Qed.

(** X12: the data attributes are decoded before the [try] block: on a
    row whose attribute ends in a lone [%] the click handler throws
    uncaught, whatever the network would answer - no message is set and
    no request is made. *)
Theorem click_on_malformed_attribute
    (net : request -> fetch_result value) (it : participant_item)
    (s : jsstring) (pg : Page) :
  data_activity it = s ++ [37] \/ data_email it = s ++ [37] ->
  decodeURIComponent (s ++ [37]) = None
  /\ delete_click net it pg = None.
Proof.
  intros H.
  assert (Hdec : decodeURIComponent (s ++ [37]) = None)
    by (unfold decodeURIComponent;
        rewrite (unescape_trailing_percent_bounded (List.length s) s (le_n _));
        reflexivity).
  split; [exact Hdec|].
  unfold delete_click, item_reference. destruct H as [-> | ->].
  - rewrite Hdec. reflexivity.
  - rewrite Hdec. destruct (decodeURIComponent (data_activity it)); reflexivity.
Qed.

Lemma click_on_malformed_attribute_witness :
  data_email {| data_activity := js "Chess%20Club"; data_email := js "50" ++ [37];
                span_text := js "50%"; click_handlers := 1 |}
  = js "50" ++ [37]
  /\ decodeURIComponent (js "50" ++ [37]) = None
  /\ delete_click (answering (Response 200 None))
       {| data_activity := js "Chess%20Club"; data_email := js "50" ++ [37];
          span_text := js "50%"; click_handlers := 1 |} loading_page
     = None.
Proof.
  split; [reflexivity|].
  exact (click_on_malformed_attribute (answering (Response 200 None))
           {| data_activity := js "Chess%20Club"; data_email := js "50" ++ [37];
              span_text := js "50%"; click_handlers := 1 |}
           (js "50") loading_page (or_intror eq_refl)).
Defined.

End ControlMore.

(** ** Further properties of the feedback and of the cards *)

Section FeedbackMore.

(** X13: the signup handler consults the network at the one request it
    builds from the two fields, and at none when a field cannot be
    percent-encoded: in that case the outcome is the catch block's
    whatever the network is. *)
Theorem signup_consults_one_request
    (net1 net2 : request -> fetch_result value) (email activity : jsstring) (pg : Page) :
  match signup_request activity email with
  | Some req => net1 req = net2 req
  | None => True
  end ->
  signup_submit net1 email activity pg = signup_submit net2 email activity pg
  /\ match signup_request activity email with
     | Some _ => True
     | None =>
         signup_submit net1 email activity pg
         = (with_message
              {| textContent := signup_failed_text; classList := ["error"%string] |} pg,
            [ConsoleError "Error signing up:"])
     end.
Proof.
  intros H. unfold signup_submit, signup_try.
  destruct (signup_request activity email) as [req|]; cbn [bind].
  - rewrite H. split; [reflexivity|exact I].
  - split; reflexivity.
Qed.

Lemma signup_consults_one_request_witness :
  signup_request (js "Chess Club") [55357] = None
  /\ signup_submit signup_ok_server [55357] (js "Chess Club") loading_page
     = signup_submit offline [55357] (js "Chess Club") loading_page
  /\ signup_submit signup_ok_server [55357] (js "Chess Club") loading_page
     = (with_message
          {| textContent := signup_failed_text; classList := ["error"%string] |}
          loading_page,
        [ConsoleError "Error signing up:"]).
Proof.
  split; [reflexivity|].
  exact (signup_consults_one_request signup_ok_server offline [55357] (js "Chess Club")
           loading_page I).
Defined.

(** X14: no handler cancels a timer: the timers pending before a handler
    runs are pending after it, and the message the handler sets is
    hidden as soon as one of them comes due, however recently it was
    set. *)
Theorem earlier_timer_hides_later_message
    (h : Page -> Page * list effect) (w : World) (d dt : N) :
  In d (timers w) -> d <= now w + dt ->
  In d (timers (run h w))
  /\ now (run h w) = now w
  /\ shown (elapse dt (run h w)) = false.
Proof.
  intros Hin Hle.
  assert (Hin' : In d (timers (run h w)))
    by (unfold run; cbn [timers]; apply in_or_app; left; exact Hin).
  split; [exact Hin'|]. split; [reflexivity|].
  exact (elapse_hides dt (run h w) d Hin' Hle).
Qed.

Lemma earlier_timer_hides_later_message_witness :
  In 5000
    (timers (elapse 3000
               (run (signup_submit signup_ok_server (js "a@x.com") (js "Chess Club"))
                  fresh_world)))
  /\ shown (run (signup_submit signup_ok_server (js "b@x.com") (js "Chess Club"))
              (elapse 3000
                 (run (signup_submit signup_ok_server (js "a@x.com") (js "Chess Club"))
                    fresh_world)))
     = true
  /\ shown (elapse 2000
              (run (signup_submit signup_ok_server (js "b@x.com") (js "Chess Club"))
                 (elapse 3000
                    (run (signup_submit signup_ok_server (js "a@x.com") (js "Chess Club"))
                       fresh_world))))
     = false.
Proof.
  assert (Hin : In 5000
            (timers (elapse 3000
               (run (signup_submit signup_ok_server (js "a@x.com") (js "Chess Club"))
                  fresh_world)))) by (left; reflexivity).
  split; [exact Hin|]. split; [reflexivity|].
  refine (proj2 (proj2 (earlier_timer_hides_later_message
            (signup_submit signup_ok_server (js "b@x.com") (js "Chess Club"))
            _ 5000 2000 Hin _))).
  cbn [now elapse run]. lia.
Defined.

Lemma fired_keeps_text (due : list N) (m : MessageDiv) :
  textContent (fold_left (fun m _ => classList_add "hidden" m) due m) = textContent m.
Proof.
  revert m. induction due as [|d due IH]; intros m; cbn [fold_left]; [reflexivity|].
  rewrite IH. reflexivity.
Qed.

Lemma fired_keeps_class (c : string) (due : list N) (m : MessageDiv) :
  String.eqb c "hidden" = false ->
  has_class c (fold_left (fun m _ => classList_add "hidden" m) due m) = has_class c m.
Proof.
  intros Hc. revert m. induction due as [|d due IH]; intros m; cbn [fold_left];
    [reflexivity|].
  rewrite IH. unfold classList_add, has_class at 1 3. cbn [classList].
  destruct (has_class "hidden" m); [reflexivity|].
  rewrite existsb_app. cbn [existsb]. rewrite Hc. rewrite !orb_false_r. reflexivity.
Qed.

(** X15: the passing of time only ever hides the message: the text, the
    severity, the list area and the select are those of before, and the
    message is shown afterwards exactly when it was shown and no pending
    timer has come due - a hidden message stays hidden. *)
Theorem timers_only_hide (dt : N) (w : World) :
  message_text (page (elapse dt w)) = message_text (page w)
  /\ severity_success (page (elapse dt w)) = severity_success (page w)
  /\ severity_error (page (elapse dt w)) = severity_error (page w)
  /\ activitiesList (page (elapse dt w)) = activitiesList (page w)
  /\ activitySelect (page (elapse dt w)) = activitySelect (page w)
  /\ shown (elapse dt w) = shown w && negb (earlier_timer_due w dt).
Proof.
  split; [|split; [|split; [|split; [|split]]]].
  - unfold message_text, elapse. cbn [page with_message messageDiv].
    apply fired_keeps_text.
  - unfold severity_success, elapse. cbn [page with_message messageDiv].
    apply fired_keeps_class. reflexivity.
  - unfold severity_error, elapse. cbn [page with_message messageDiv].
    apply fired_keeps_class. reflexivity.
  - reflexivity.
  - reflexivity.
  - apply shown_elapse.
Qed.


(** Rounding keeps the sign. *)
Lemma double_round_negative (z : Z) : (z < 0)%Z -> (double_round z < 0)%Z.
Proof.
  intros Hz. unfold double_round.
  destruct (Z.abs z <? 2 ^ 53)%Z eqn:E; [exact Hz|].
  apply Z.ltb_ge in E. set (a := Z.abs z) in *.
  assert (Hlog : (53 <= Z.log2 a)%Z)
    by (change 53%Z with (Z.log2 (2 ^ 53)); apply Z.log2_le_mono; exact E).
  set (sh := (Z.log2 a - 52)%Z).
  assert (Hsh : (0 < sh)%Z) by (unfold sh; lia).
  assert (Hpow : (0 < 2 ^ sh)%Z) by (apply Z.pow_pos_nonneg; lia).
  assert (Hq : (0 < Z.shiftr a sh)%Z).
  { rewrite Z.shiftr_div_pow2 by lia. apply Z.div_str_pos. split; [exact Hpow|].
    assert (Ha : (0 < a)%Z) by lia.
    destruct (Z.log2_spec a Ha) as [Hlo _].
    apply Z.le_trans with (2 ^ Z.log2 a)%Z; [|exact Hlo].
    apply Z.pow_le_mono_r; unfold sh; lia. }
  set (q := Z.shiftr a sh) in *.
  match goal with
  | |- context [if ?b then (q + 1)%Z else q] =>
      set (q' := if b then (q + 1)%Z else q);
      assert (Hq' : (0 < q')%Z) by (unfold q'; destruct b; lia)
  end.
  rewrite Z.shiftl_mul_pow2 by lia. rewrite (Z.sgn_neg z Hz). nia.
Qed.

Lemma negative_prints_minus (z : Z) :
  (z < 0)%Z -> exists digits, Z_to_jsstring z = 45 :: digits.
Proof.
  intros Hz. destruct z as [|q|q]; try lia.
  unfold Z_to_jsstring. cbn [Z.to_int NilZero.string_of_int].
  eexists. reflexivity.
Qed.

(** X16: the count of places left is not clamped: for an activity with
    more participants than [max_participants] the card reads a negative
    number of spots. *)
Theorem overbooked_card_shows_negative
    (name : jsstring) (details : Activity) (html : jsstring)
    (items : list participant_item) :
  activityCard name details = Some (ActivityCard html items) ->
  (max_participants details < Z.of_nat (List.length (participants details)))%Z ->
  (spotsLeft details < 0)%Z
  /\ occurs_in (js "<p><strong>Availability:</strong> -") html.
Proof.
  intros Hcard Hover.
  assert (Hneg : (spotsLeft details < 0)%Z)
    by (unfold spotsLeft; apply double_round_negative; lia).
  split; [exact Hneg|].
  unfold activityCard in Hcard.
  destruct (participantsSection name details) as [sec|]; [|discriminate].
  cbn [bind] in Hcard. injection Hcard as <- _.
  destruct (negative_prints_minus _ Hneg) as [digits Hd].
  unfold card_html. rewrite Hd.
  exists (newline ++ indent ++ js "<h4>" ++ name ++ js "</h4>"
          ++ newline ++ indent ++ js "<p>" ++ description details ++ js "</p>"
          ++ newline ++ indent ++ js "<p><strong>Schedule:</strong> "
          ++ schedule details ++ js "</p>" ++ newline ++ indent).
  eexists.
  change (js "<p><strong>Availability:</strong> -")
    with (js "<p><strong>Availability:</strong> " ++ [45]).
  change (45 :: digits) with ([45] ++ digits).
  rewrite <- !app_assoc. reflexivity.
Qed.

Lemma overbooked_card_shows_negative_witness :
  (max_participants (snd gym_entry)
   < Z.of_nat (List.length (participants (snd gym_entry))))%Z
  /\ exists html items,
       activityCard (fst gym_entry) (snd gym_entry) = Some (ActivityCard html items)
       /\ (spotsLeft (snd gym_entry) < 0)%Z
       /\ occurs_in (js "<p><strong>Availability:</strong> -") html.
Proof.
  assert (Hover : (max_participants (snd gym_entry)
                   < Z.of_nat (List.length (participants (snd gym_entry))))%Z)
    by reflexivity.
  split; [exact Hover|].
  destruct (activityCard (fst gym_entry) (snd gym_entry)) as [[html items|t]|] eqn:Hcard;
    [|vm_compute in Hcard; discriminate Hcard..].
  exists html, items. split; [reflexivity|].
  exact (overbooked_card_shows_negative _ _ html items Hcard Hover).
Defined.

Lemma objects_print_alike (items : list value) :
  Forall (fun v => exists fields, v = VObject fields) items ->
  ToString (VArray items) = join (js ",") (map (fun _ => js "[object Object]") items).
Proof.
  intros H. cbn [ToString]. f_equal. apply map_ext_in. intros v Hv.
  rewrite Forall_forall in H. destruct (H v Hv) as [fields ->]. reflexivity.
Qed.

(** X17: a detail that is not a string is shown through its string
    conversion, not replaced by the fallback: a detail that is a list of
    objects (the shape of a validation error) reads "[object Object]"
    once per object, separated by commas, with error severity. *)
Theorem signup_detail_list_of_objects
    (net : request -> fetch_result value) (email activity : jsstring) (pg : Page)
    (req : request) (status : N) (fields : list (jsstring * value))
    (items : list value) :
  signup_request activity email = Some req ->
  net req = Response status (Some (VObject fields)) ->
  response_ok status = false ->
  lookup_field (js "detail") fields = VArray items ->
  Forall (fun v => exists f, v = VObject f) items ->
  message_text (fst (signup_submit net email activity pg))
  = join (js ",") (map (fun _ => js "[object Object]") items)
  /\ severity_error (fst (signup_submit net email activity pg)) = true.
Proof.
  intros Hreq Hnet Hst Hdet Hobj. unfold signup_submit.
  rewrite (signup_try_response net email activity _ req status _ Hreq Hnet).
  cbn [bind get_field]. rewrite Hst, Hdet. cbn [bind or_else ToBoolean].
  split; [|reflexivity].
  unfold message_text. cbn [fst with_message messageDiv classList_remove set_className
                            set_textContent textContent DOMString_of].
  apply objects_print_alike. exact Hobj.
Qed.

Lemma signup_detail_list_of_objects_witness :
  signup_request (js "Chess Club") (js "a@x.com")
  = Some {| method := POST; url := js "/activities/Chess%20Club/signup?email=a%40x.com" |}
  /\ response_ok 422 = false
  /\ message_text
       (fst (signup_submit validation_error_server (js "a@x.com") (js "Chess Club")
               loading_page))
     = js "[object Object],[object Object]"
  /\ severity_error
       (fst (signup_submit validation_error_server (js "a@x.com") (js "Chess Club")
               loading_page))
     = true.
Proof.
  split; [reflexivity|]. split; [reflexivity|].
  refine (signup_detail_list_of_objects validation_error_server (js "a@x.com")
            (js "Chess Club") loading_page _ 422 [(js "detail", VArray validation_errors)]
            validation_errors eq_refl eq_refl eq_refl eq_refl _).
  repeat (apply Forall_cons; [eexists; reflexivity|]). apply Forall_nil.
Defined.

Lemma occurs_in_here (x a b : jsstring) : occurs_in x (a ++ x ++ b).
Proof. exists a, b. reflexivity. Qed.

Lemma occurs_in_app_l (x s t : jsstring) : occurs_in x s -> occurs_in x (s ++ t).
Proof.
  intros (a & b & ->). exists a, (b ++ t). rewrite <- !app_assoc. reflexivity.
Qed.

Lemma occurs_in_app_r (x s t : jsstring) : occurs_in x t -> occurs_in x (s ++ t).
Proof.
  intros (a & b & ->). exists (s ++ a), b. rewrite <- !app_assoc. reflexivity.
Qed.

Lemma occurs_in_trans (x y z : jsstring) :
  occurs_in x y -> occurs_in y z -> occurs_in x z.
Proof.
  intros (a & b & ->) (c & d & ->). exists (c ++ a), (b ++ d).
  rewrite <- !app_assoc. reflexivity.
Qed.

Lemma occurs_in_join (row : jsstring) (rows : list jsstring) :
  In row rows -> occurs_in row (join [] rows).
Proof.
  induction rows as [|r rows IH]; [intros []|].
  intros [->|Hin].
  - destruct rows as [|r' rows]; cbn [join].
    + exists [], []. rewrite app_nil_r. reflexivity.
    + exists [], (join [] (r' :: rows)). reflexivity.
  - specialize (IH Hin). destruct rows as [|r' rows]; [destruct Hin|].
    cbn [join app] in *. destruct IH as (a & b & ->).
    exists (r ++ a), b. rewrite <- !app_assoc. reflexivity.
Qed.

Lemma Forall2_pick {A B} (R : A -> B -> Prop) (l : list A) (l' : list B) (x : A) :
  Forall2 R l l' -> In x l -> exists y, In y l' /\ R x y.
Proof.
  induction 1 as [|a b l l' Hab _ IH]; [intros []|].
  intros [->|Hin].
  - exists b. split; [left; reflexivity|exact Hab].
  - destruct (IH Hin) as (y & Hy & Hr). exists y. split; [right; exact Hy|exact Hr].
Qed.

(** X18: the card's markup takes the strings of the answer as they are:
    the activity name, the description, the schedule and the email of
    every participant stand in it unescaped, between their tags. *)
Theorem card_markup_is_verbatim
    (name : jsstring) (details : Activity) (html : jsstring)
    (items : list participant_item) (p : jsstring) :
  activityCard name details = Some (ActivityCard html items) ->
  In p (participants details) ->
  occurs_in (js "<h4>" ++ name ++ js "</h4>") html
  /\ occurs_in (js "<p>" ++ description details ++ js "</p>") html
  /\ occurs_in (js "<p><strong>Schedule:</strong> " ++ schedule details ++ js "</p>") html
  /\ occurs_in (js "<span>" ++ p ++ js "</span>") html.
Proof.
  intros Hcard Hin.
  pose proof (activityCard_shows name details _ Hcard) as Hshows.
  destruct Hshows as (rows & items' & Hlen & Hrows & _ & Heq).
  injection Heq as -> _. unfold card_html.
  split; [|split; [|split]].
  - exists (newline ++ indent). eexists. rewrite <- !app_assoc. reflexivity.
  - exists (newline ++ indent ++ js "<h4>" ++ name ++ js "</h4>" ++ newline ++ indent).
    eexists. rewrite <- !app_assoc. reflexivity.
  - exists (newline ++ indent ++ js "<h4>" ++ name ++ js "</h4>"
            ++ newline ++ indent ++ js "<p>" ++ description details ++ js "</p>"
            ++ newline ++ indent).
    eexists. rewrite <- !app_assoc. reflexivity.
  - destruct (participants details) as [|q qs] eqn:Hps; [destruct Hin|].
    destruct (Forall2_pick _ _ _ p Hrows Hin) as (row & Hr & (a & e & _ & _ & Hrow)).
    apply (occurs_in_trans _ row).
    + subst row. unfold participant_item_html.
      exists (js "<div " ++ attr "class" (js "participant-item") ++ js " "
              ++ attr "data-activity" a ++ js " " ++ attr "data-email" e ++ [62]).
      eexists.
      change (js "><span>") with ([62] ++ js "<span>").
      change (js "</span><button ") with (js "</span>" ++ js "<button ").
      rewrite <- !app_assoc. reflexivity.
    + assert (Hsec : occurs_in row (participants_html rows)).
      { apply (occurs_in_trans _ (join [] rows)); [exact (occurs_in_join row rows Hr)|].
        unfold participants_html.
        exists (participants_open ++ js "<div " ++ attr "class" (js "participants-list")
                ++ js ">"), (js "</div></div>").
        rewrite <- !app_assoc. reflexivity. }
      repeat first [apply occurs_in_app_l; exact Hsec|apply occurs_in_app_r].
Qed.

Lemma card_markup_is_verbatim_witness :
  In (js "c@x.com") (participants (snd gym_entry))
  /\ exists html items,
       activityCard (fst gym_entry) (snd gym_entry) = Some (ActivityCard html items)
       /\ occurs_in (js "<h4>" ++ fst gym_entry ++ js "</h4>") html
       /\ occurs_in (js "<p>" ++ description (snd gym_entry) ++ js "</p>") html
       /\ occurs_in (js "<p><strong>Schedule:</strong> " ++ schedule (snd gym_entry)
                     ++ js "</p>") html
       /\ occurs_in (js "<span>" ++ js "c@x.com" ++ js "</span>") html.
Proof.
  assert (Hin : In (js "c@x.com") (participants (snd gym_entry)))
    by (right; left; reflexivity).
  split; [exact Hin|].
  destruct (activityCard (fst gym_entry) (snd gym_entry)) as [[html items|t]|] eqn:Hcard;
    [|vm_compute in Hcard; discriminate Hcard..].
  exists html, items. split; [reflexivity|].
  exact (card_markup_is_verbatim _ _ html items (js "c@x.com") Hcard Hin).
Defined.

End FeedbackMore.

(** ** Counting rows in the markup of a card *)

Section Markup.

Lemma mismatch_starts_with (p s t : jsstring) :
  mismatch p s = true -> starts_with p (s ++ t) = false.
Proof.
  revert s. induction p as [|a p IH]; intros [|b s]; cbn [mismatch app starts_with];
    try discriminate.
  destruct (a =? b); cbn [andb]; [apply IH|reflexivity].
Qed.

Lemma count_skip (p l t : jsstring) :
  all_mismatch p l = true ->
  count_occurrences p (l ++ t) = count_occurrences p t.
Proof.
  induction l as [|c l IH]; [reflexivity|].
  cbn [all_mismatch]. intros H. apply andb_prop in H. destruct H as [Hm Hl].
  change ((c :: l) ++ t) with (c :: (l ++ t)). cbn [count_occurrences].
  change (c :: l ++ t) with ((c :: l) ++ t).
  rewrite (mismatch_starts_with p (c :: l) t Hm), (IH Hl). reflexivity.
Qed.

Lemma starts_with_app (p t : jsstring) : starts_with p (p ++ t) = true.
Proof.
  induction p as [|a p IH]; [reflexivity|].
  cbn [app starts_with]. rewrite N.eqb_refl, IH. reflexivity.
Qed.

Lemma count_row_tag_here (t : jsstring) :
  count_occurrences row_tag (row_tag ++ t) = S (count_occurrences row_tag t).
Proof.
  pose proof (starts_with_app row_tag t) as Hs.
  assert (Htl : all_mismatch row_tag (tl row_tag) = true) by reflexivity.
  pose proof (count_skip row_tag (tl row_tag) t Htl) as Hc.
  change (row_tag ++ t) with (60 :: (tl row_tag ++ t)) in *.
  cbn [count_occurrences]. rewrite Hs, Hc. reflexivity.
Qed.

(** A string without [<] holds no start of a row tag. *)
Lemma no_lt_mismatch (s : jsstring) :
  Forall (fun c => c <> 60) s -> all_mismatch row_tag s = true.
Proof.
  induction 1 as [|c s Hc _ IH]; [reflexivity|].
  cbn [all_mismatch]. rewrite IH, andb_true_r.
  change row_tag with (60 :: tl row_tag). cbn [mismatch].
  destruct (60 =? c) eqn:E; [|reflexivity].
  apply N.eqb_eq in E. congruence.
Qed.

Lemma markup_free_no_lt (s : jsstring) :
  markup_free s = true -> Forall (fun c => c <> 60) s.
Proof.
  unfold markup_free. intros H. apply Forall_forall. intros c Hc.
  rewrite forallb_forall in H. specialize (H c Hc).
  apply andb_prop in H. destruct H as [H _]. intros ->. discriminate H.
Qed.

Lemma encoded_no_lt (s e : jsstring) :
  code_units s -> encodeURIComponent s = Some e -> Forall (fun c => c <> 60) e.
Proof.
  intros Hcu He. eapply Forall_impl; [|exact (encoded_chars s e Hcu He)].
  intros c [Hc| ->]; [|discriminate]. intros ->. vm_compute in Hc. discriminate Hc.
Qed.

Lemma uint_digits_no_lt (d : Decimal.uint) :
  Forall (fun c => c <> 60) (js (NilEmpty.string_of_uint d)).
Proof.
  induction d; cbn [NilEmpty.string_of_uint]; try apply Forall_nil;
    (apply Forall_cons; [discriminate|exact IHd]).
Qed.

Lemma number_no_lt (z : Z) : Forall (fun c => c <> 60) (Z_to_jsstring z).
Proof.
  unfold Z_to_jsstring.
  assert (H : forall d, Forall (fun c => c <> 60) (js (NilZero.string_of_uint d))).
  { intros d. pose proof (uint_digits_no_lt d) as Hd.
    destruct d; try exact Hd. repeat constructor. discriminate. }
  destruct (Z.to_int z) as [d|d]; cbn [NilZero.string_of_int]; [apply H|].
  apply Forall_cons; [discriminate|apply H].
Qed.

(** The row template, split at the strings it takes. *)
Lemma participant_item_html_shape (a e p : jsstring) :
  participant_item_html a e p
  = row_tag
    ++ (js " data-activity=" ++ quote) ++ a
    ++ (quote ++ js " data-email=" ++ quote) ++ e
    ++ (quote ++ js "><span>") ++ p
    ++ (js "</span><button " ++ attr "class" (js "delete-btn") ++ js " "
        ++ attr "aria-label" (js "Remove participant") ++ js ">"
        ++ [10005] ++ js "</button></div>").
Proof.
  unfold participant_item_html, attr. rewrite <- !app_assoc. reflexivity.
Qed.

Lemma count_row (a e p t : jsstring) :
  Forall (fun c => c <> 60) a -> Forall (fun c => c <> 60) e ->
  Forall (fun c => c <> 60) p ->
  count_occurrences row_tag (participant_item_html a e p ++ t)
  = S (count_occurrences row_tag t).
Proof.
  intros Ha He Hp. rewrite participant_item_html_shape.
  rewrite <- !app_assoc. rewrite count_row_tag_here. f_equal.
  repeat first
    [ rewrite (count_skip row_tag a) by (apply no_lt_mismatch; exact Ha)
    | rewrite (count_skip row_tag e) by (apply no_lt_mismatch; exact He)
    | rewrite (count_skip row_tag p) by (apply no_lt_mismatch; exact Hp)
    | rewrite count_skip by reflexivity ].
  reflexivity.
Qed.

Lemma join_cons (r : jsstring) (rows : list jsstring) :
  join [] (r :: rows) = r ++ join [] rows.
Proof. destruct rows; cbn [join app]; [rewrite app_nil_r|]; reflexivity. Qed.

Lemma count_rows (name : jsstring) (ps rows : list jsstring) (t : jsstring) :
  Forall2 (row_shows name) ps rows ->
  code_units name -> Forall code_units ps -> forallb markup_free ps = true ->
  count_occurrences row_tag (join [] rows ++ t)
  = (List.length ps + count_occurrences row_tag t)%nat.
Proof.
  intros Hrows Hname. induction Hrows as [|p row ps rows (a & e & Ha & He & ->) _ IH];
    intros Hcu Hmf; [reflexivity|].
  inversion Hcu as [|? ? Hp Hps]; subst. cbn [forallb] in Hmf.
  apply andb_prop in Hmf. destruct Hmf as [Hpm Hpsm].
  rewrite join_cons, <- app_assoc, count_row.
  - rewrite (IH Hps Hpsm). reflexivity.
  - exact (encoded_no_lt name a Hname Ha).
  - exact (encoded_no_lt p e Hp He).
  - exact (markup_free_no_lt p Hpm).
Qed.

Lemma participants_html_shape (rows : list jsstring) :
  participants_html rows = participants_list_open ++ join [] rows ++ js "</div></div>".
Proof.
  unfold participants_html, participants_list_open. rewrite <- !app_assoc. reflexivity.
Qed.

(** In the markup of a card whose strings hold no [<], the row tags are
    those of the participants. *)
Lemma activityCard_row_count (name : jsstring) (details : Activity)
    (html : jsstring) (items : list participant_item) :
  activityCard name details = Some (ActivityCard html items) ->
  entry_code_units (name, details) ->
  entry_markup_free (name, details) = true ->
  count_occurrences row_tag html = List.length (participants details).
Proof.
  intros Hcard [Hname Hps] Hmf. cbn [fst snd] in Hname, Hps.
  unfold entry_markup_free in Hmf. cbn [fst snd] in Hmf.
  apply andb_prop in Hmf. destruct Hmf as [Hmf Hpm].
  apply andb_prop in Hmf. destruct Hmf as [Hmf Hsm].
  apply andb_prop in Hmf. destruct Hmf as [Hnm Hdm].
  destruct (activityCard_shows name details _ Hcard)
    as (rows & items' & _ & Hrows & _ & Heq).
  injection Heq as -> _. unfold card_html.
  assert (Hskip : forall t,
             count_occurrences row_tag
               (newline ++ indent ++ js "<h4>" ++ name ++ js "</h4>"
                ++ newline ++ indent ++ js "<p>" ++ description details ++ js "</p>"
                ++ newline ++ indent ++ js "<p><strong>Schedule:</strong> "
                ++ schedule details ++ js "</p>"
                ++ newline ++ indent ++ js "<p><strong>Availability:</strong> "
                ++ Z_to_jsstring (spotsLeft details) ++ js " spots left</p>"
                ++ newline ++ indent ++ t)
             = count_occurrences row_tag t).
  { intros t.
    repeat first
      [ rewrite (count_skip row_tag name)
          by (apply no_lt_mismatch, markup_free_no_lt; exact Hnm)
      | rewrite (count_skip row_tag (description details))
          by (apply no_lt_mismatch, markup_free_no_lt; exact Hdm)
      | rewrite (count_skip row_tag (schedule details))
          by (apply no_lt_mismatch, markup_free_no_lt; exact Hsm)
      | rewrite (count_skip row_tag (Z_to_jsstring (spotsLeft details)))
          by (apply no_lt_mismatch, number_no_lt)
      | rewrite count_skip by reflexivity ].
    reflexivity. }
  rewrite Hskip. clear Hskip.
  destruct (participants details) as [|q qs] eqn:Hq.
  - reflexivity.
  - rewrite participants_html_shape, <- !app_assoc.
    rewrite (count_skip row_tag participants_list_open) by reflexivity.
    rewrite (count_rows name (q :: qs) rows _ Hrows Hname Hps Hpm).
    rewrite Nat.add_comm. reflexivity.
Qed.

End Markup.

(** ** The claim on the count of places and the rows *)

Section RosterClaim.






End RosterClaim.

(** ** Rows of the list and their delete buttons *)

Section RowsMore.

(** X7: after a load that rendered a collection whose strings hold no
    [<] or [&], the markup of every card has as many row tags as the
    card has rows, and the rows, read back through their data
    attributes as the click handler does, are the (activity,
    participant) pairs of the collection, in order. *)
Theorem rendered_rows_reference_roster
    (net : request -> fetch_result ActivityCollection) (pg : Page)
    (status : N) (c : ActivityCollection) :
  net activities_request = Response status (Some c) ->
  snd (fetchActivities net pg) = [] ->
  Forall entry_code_units c ->
  forallb entry_markup_free c = true ->
  Forall (fun card => match card with
                      | ActivityCard html items =>
                          count_occurrences row_tag html = List.length items
                      | Paragraph _ => False
                      end) (activitiesList (fst (fetchActivities net pg)))
  /\ map item_reference (all_rows (fst (fetchActivities net pg))) = roster_references c.
Proof.
  intros Hnet Hok Hcu Hmf.
  destruct (fetchActivities_rendered net pg status c Hnet Hok) as (cards & Hall & Heq).
  rewrite Heq. cbn [fst]. rewrite all_rows_attach, map_map. unfold all_rows.
  cbn [attach_handlers activitiesList]. clear Heq Hnet Hok.
  induction Hall as [|[name details] card c' cards' Hcard _ IH];
    [split; [constructor|reflexivity]|].
  inversion Hcu as [|? ? Hentry Hcu']; subst.
  cbn [forallb] in Hmf. apply andb_prop in Hmf. destruct Hmf as [Hm Hmf'].
  destruct (IH Hcu' Hmf') as [IHc IHr]. cbn [fst snd] in Hcard.
  pose proof (activityCard_rows name details card Hcard) as Hrows.
  split.
  - cbn [map]. constructor; [|exact IHc].
    destruct card as [html items|t].
    + rewrite length_map.
      rewrite (activityCard_row_count name details html items Hcard Hentry Hm).
      exact (Forall2_length Hrows).
    + unfold activityCard in Hcard.
      destruct (participantsSection name details); discriminate Hcard.
  - unfold roster_references. cbn [flat_map fst snd]. rewrite !map_app.
    assert (Hhead : map item_reference (map add_listener (rows_of card))
                    = map (fun p => Some (name, p)) (participants details)).
    2: { rewrite Hhead. f_equal. exact IHr. }
    rewrite map_map.
    destruct Hentry as [Hname Hps]. cbn [fst snd] in Hname, Hps.
    clear Hcard. induction Hrows as [|p it ps its (html & Hit) _ IHp]; [reflexivity|].
    inversion Hps as [|? ? Hp Hps']; subst. cbn [map]. f_equal; [|apply IHp; exact Hps'].
    rewrite item_reference_add_listener.
    exact (rendered_item_reference name p html it Hname Hp Hit).
Qed.

Lemma rendered_rows_reference_roster_witness :
  answering (Response 200 (Some (chess_club ++ [gym_entry]))) activities_request
  = Response 200 (Some (chess_club ++ [gym_entry]))
  /\ snd (fetchActivities (answering (Response 200 (Some (chess_club ++ [gym_entry]))))
            loading_page) = []
  /\ forallb entry_markup_free (chess_club ++ [gym_entry]) = true
  /\ Forall (fun card => match card with
                         | ActivityCard html items =>
                             count_occurrences row_tag html = List.length items
                         | Paragraph _ => False
                         end)
       (activitiesList
          (fst (fetchActivities (answering (Response 200 (Some (chess_club ++ [gym_entry]))))
                  loading_page)))
  /\ map item_reference
       (all_rows
          (fst (fetchActivities (answering (Response 200 (Some (chess_club ++ [gym_entry]))))
                  loading_page)))
     = [Some (js "Chess Club", js "a@x.com");
        Some (js "Gym", js "b@x.com"); Some (js "Gym", js "c@x.com")].
Proof.
  split; [reflexivity|]. split; [reflexivity|]. split; [reflexivity|].
  apply (rendered_rows_reference_roster _ loading_page 200 (chess_club ++ [gym_entry]));
    [reflexivity|reflexivity| |reflexivity].
  repeat (apply Forall_cons;
          [split; cbn [fst snd participants];
           [apply code_units_check; reflexivity
           |repeat (apply Forall_cons; [apply code_units_check; reflexivity|]);
            apply Forall_nil]|]).
  apply Forall_nil.
Defined.

(** X11: a click on a delete button enclosed in the row written for
    (name, p) asks the server for one thing only: DELETE on the path
    spelled with the row's two data attributes as they stand - decoding
    them and encoding them again changes nothing; it does not throw
    uncaught, and what it does depends on the network through the
    answer to that request alone. *)
Theorem click_resends_attributes
    (net1 net2 : request -> fetch_result value)
    (name p : jsstring) (btn : delete_button) (row : participant_item) (pg : Page) :
  code_units name -> code_units p ->
  closest_item btn = Some row ->
  encodeURIComponent name = Some (data_activity row) ->
  encodeURIComponent p = Some (data_email row) ->
  net1 (attribute_request row) = net2 (attribute_request row) ->
  unregister_request name p = Some (attribute_request row)
  /\ delete_btn_click net1 btn pg = delete_btn_click net2 btn pg
  /\ delete_btn_click net1 btn pg <> None.
Proof.
  intros Hn Hp Hbtn Ha He Hnet.
  assert (Href : item_reference row = Some (name, p))
    by (unfold item_reference;
        rewrite (decode_encode name _ Hn Ha), (decode_encode p _ Hp He); reflexivity).
  assert (Hreq : unregister_request name p = Some (attribute_request row))
    by (unfold unregister_request; rewrite Ha, He; reflexivity).
  split; [exact Hreq|].
  unfold delete_btn_click. rewrite Hbtn. cbn [bind].
  rewrite !(delete_click_reference _ p name row pg Href).
  split; [|discriminate]. f_equal.
  unfold unregister, unregister_try. rewrite Hreq. cbn [bind]. rewrite Hnet.
  reflexivity.
Qed.

Lemma click_resends_attributes_witness :
  code_units (js "Chess Club") /\ code_units (js "a@x.com")
  /\ encodeURIComponent (js "Chess Club") = Some (data_activity chess_row)
  /\ encodeURIComponent (js "a@x.com") = Some (data_email chess_row)
  /\ unregister_request (js "Chess Club") (js "a@x.com")
     = Some {| method := DELETE;
               url := js "/activities/Chess%20Club/unregister?email=a%40x.com" |}
  /\ delete_btn_click (answering (Response 200 None))
       {| closest_item := Some chess_row |} loading_page
     = delete_btn_click
         (fun req => match method req with
                     | DELETE => Response 200 None
                     | _ => NetworkError
                     end)
         {| closest_item := Some chess_row |} loading_page
  /\ delete_btn_click (answering (Response 200 None))
       {| closest_item := Some chess_row |} loading_page
     <> None.
Proof.
  assert (H1 : code_units (js "Chess Club")) by (apply code_units_check; reflexivity).
  assert (H2 : code_units (js "a@x.com")) by (apply code_units_check; reflexivity).
  split; [exact H1|]. split; [exact H2|]. split; [reflexivity|]. split; [reflexivity|].
  exact (click_resends_attributes (answering (Response 200 None))
           (fun req => match method req with
                       | DELETE => Response 200 None
                       | _ => NetworkError
                       end)
           (js "Chess Club") (js "a@x.com") {| closest_item := Some chess_row |}
           chess_row loading_page H1 H2 eq_refl eq_refl eq_refl eq_refl).
Defined.

End RowsMore.
